(** * Message passing in the DGL tutorial notebook [6_message_passing]

    The notebook defines two [SAGEConv] modules and one user-defined message
    function.  Their code is embedded below as programs of a small
    state-and-exception monad; every call they make leaves the notebook and
    enters PyTorch or DGL.  Those two libraries are not part of the
    repository, so what a call does is modelled from the specification and
    from the notebook's own prose, in the modules [Torch] and [DGL].

    Scalars are exact rationals: rounding, infinities and NaN of the
    floating-point tensors are outside this development.  A [tensor] stands
    for a two-dimensional tensor of the default floating-point dtype, the
    dtype of the parameters that [nn.Linear] creates; tensors of one
    dimension and of other dtypes are in the module [Any], which shows where
    the user-defined message function and the built-in one part ways. *)

From Stdlib Require Import QArith Qminmax Lqa Lia List.
From stdpp Require Import gmap strings.

Local Open Scope string_scope.
Local Open Scope nat_scope.

(** ** Exceptions and outcomes *)

(** Modelled from the spec: what PyTorch raises "for malformed tensor
    shapes"; the library is absent from the repository. *)
Inductive torch_error :=
| size_mismatch        (* operand shapes cannot be combined *)
| empty_tensor_list    (* torch.cat of no tensor *)
| dim_out_of_range.    (* dim outside the two dimensions *)

(** Modelled from the spec: what DGL raises "for malformed tensor shapes or
    graph structure"; the library is absent from the repository. *)
Inductive dgl_error :=
| feature_length_mismatch (expected got : nat)  (* rows of a feature vs. nodes or edges *)
| message_length_mismatch (expected : nat)      (* rows of a message vs. edges *)
| not_broadcastable                             (* operands of a built-in message function *)
| unsupported_dtype                             (* operands that are not of one floating dtype *)
| empty_feature.                                (* a feature without a column *)

(** Python's exceptions, and those of the two libraries. *)
Inductive exn :=
| NameError (name : string)
| KeyError (key : string)
| AttributeError
| TypeError
| RuntimeError (why : torch_error)
| DGLError (why : dgl_error).

Inductive outcome (A : Type) :=
| Returned (a : A)
| Raised (e : exn).
Arguments Returned {A} a.
Arguments Raised {A} e.

#[global] Instance outcome_ret : MRet outcome := fun A a => Returned a.
#[global] Instance outcome_bind : MBind outcome := fun A B f m =>
  match m with
  | Returned a => f a
  | Raised e => Raised e
  end.

Definition raises {A} (o : outcome A) : Prop :=
  match o with Returned _ => False | Raised _ => True end.

(** ** Sums of rationals *)

Definition qsum (l : list Q) : Q := fold_right Qplus 0%Q l.

Definition dot (n : nat) (x y : nat -> Q) : Q :=
  qsum (map (fun j => (x j * y j)%Q) (seq 0 n)).

(** ** Tensors *)

(** Modelled from the spec: the "per-node feature tensors, per-edge feature
    tensors, and message tensors"; PyTorch's tensor type is absent from the
    repository.  A tensor here is two-dimensional, one row per node or per
    edge and one column per feature, and carries its shape, so that a tensor
    with no row still has a feature width. *)
Record tensor := mkTensor {
  nrows : nat;
  ncols : nat;
  cell : nat -> nat -> Q
}.

(** The entries of a tensor, row by row, and the tensor of width [c] with
    given rows. *)
Definition to_lists (t : tensor) : list (list Q) :=
  map (fun i => map (fun j => Qred (cell t i j)) (seq 0 (ncols t))) (seq 0 (nrows t)).

Definition of_lists (c : nat) (l : list (list Q)) : tensor :=
  mkTensor (length l) c (fun i j => nth j (nth i l []) 0%Q).

Module Torch.

(** PyTorch is an external dependency ("the tensor-computation framework").
    The operations the notebook calls are given their documented meaning on
    two-dimensional tensors, as the notebook's formula
    ReLU(W . CONCAT(h_v, h_N(v))) uses them. *)

(** Modelled from the spec: [t[:n]], absent from the repository; the first
    [n] rows, as many as there are.  A slice never fails. *)
Definition slice_to (t : tensor) (n : nat) : tensor :=
  mkTensor (Nat.min n (nrows t)) (ncols t) (cell t).

(** Modelled from the spec: PyTorch's broadcasting rule, absent from the
    repository; two sizes go together when they are equal or one of them
    is 1. *)
Definition broadcast (a b : nat) : option nat :=
  if a =? b then Some a
  else if a =? 1 then Some b
  else if b =? 1 then Some a
  else None.

(** Modelled from the spec: the index read in a dimension of size [n] that
    may be broadcast (PyTorch, absent from the repository). *)
Definition bidx (n i : nat) : nat := if n =? 1 then 0 else i.

(** Modelled from the spec: [a * b] on tensors, absent from the repository;
    the elementwise product, with broadcasting. *)
Definition mul (a b : tensor) : outcome tensor :=
  match broadcast (nrows a) (nrows b), broadcast (ncols a) (ncols b) with
  | Some r, Some c =>
      Returned (mkTensor r c (fun i j =>
        (cell a (bidx (nrows a) i) (bidx (ncols a) j)
         * cell b (bidx (nrows b) i) (bidx (ncols b) j))%Q))
  | _, _ => Raised (RuntimeError size_mismatch)
  end.

(** Modelled from the spec: concatenation of two tensors along dimension 1
    (PyTorch, absent from the repository); the rows have to agree. *)
Definition cat_cols (a b : tensor) : outcome tensor :=
  if nrows a =? nrows b then
    Returned (mkTensor (nrows a) (ncols a + ncols b) (fun i j =>
      if j <? ncols a then cell a i j else cell b i (j - ncols a)))
  else Raised (RuntimeError size_mismatch).

(** Modelled from the spec: concatenation of two tensors along dimension 0
    (PyTorch, absent from the repository); the widths have to agree. *)
Definition cat_rows (a b : tensor) : outcome tensor :=
  if ncols a =? ncols b then
    Returned (mkTensor (nrows a + nrows b) (ncols a) (fun i j =>
      if i <? nrows a then cell a i j else cell b (i - nrows a) j))
  else Raised (RuntimeError size_mismatch).

(** Modelled from the spec: concatenation of [acc] with the tensors of a
    list, from left to right (PyTorch, absent from the repository). *)
Fixpoint cat_from (acc : tensor) (ts : list tensor) (dim : nat) : outcome tensor :=
  match ts with
  | [] => Returned acc
  | t :: ts' =>
      acc' ← (if dim =? 1 then cat_cols acc t else cat_rows acc t);
      cat_from acc' ts' dim
  end.

(** Modelled from the spec: [torch.cat(ts, dim)], absent from the
    repository; the CONCAT of the notebook's formula. *)
Definition cat (ts : list tensor) (dim : nat) : outcome tensor :=
  if 2 <=? dim then Raised (RuntimeError dim_out_of_range)
  else match ts with
       | [] => Raised (RuntimeError empty_tensor_list)
       | t :: ts' => cat_from t ts' dim
       end.

(** Modelled from the spec: [F.relu], absent from the repository; the ReLU
    of the notebook's formula, the positive part of every entry. *)
Definition relu (t : tensor) : tensor :=
  mkTensor (nrows t) (ncols t) (fun i j => Qmax 0 (cell t i j)).

(** Modelled from the spec: an [nn.Linear] module, absent from the
    repository; a weight of shape (out_features, in_features) and a bias. *)
Record Linear := mkLinear {
  in_features : nat;
  out_features : nat;
  weight : nat -> nat -> Q;
  bias : nat -> Q
}.

(** Modelled from the spec: calling an [nn.Linear], absent from the
    repository; the W . x of the notebook's formula, x W^T + b row by row. *)
Definition linear (l : Linear) (x : tensor) : outcome tensor :=
  if ncols x =? in_features l then
    Returned (mkTensor (nrows x) (out_features l) (fun i k =>
      (dot (in_features l) (cell x i) (weight l k) + bias l k)%Q))
  else Raised (RuntimeError size_mismatch).

End Torch.

(** ** The graph library *)

Module DGL.

(** DGL is an external dependency ("a third-party graph-neural-network
    library"); what the notebook calls is modelled from the specification's
    section on external interfaces, from its glossary and from the notebook's
    prose. *)

Abbreviation frame := (gmap string tensor).

(** Modelled from the spec: "a graph abstraction exposing per-endpoint
    feature storage"; DGL's graph object is absent from the repository.
    The notebook notes that on a homogeneous graph [srcdata] and [dstdata]
    are both [ndata]; a graph with separate source and destination nodes
    keeps one frame per endpoint. *)
Inductive node_data :=
| homogeneous (n : nat) (ndata : frame)
| bipartite (n_src n_dst : nat) (srcframe dstframe : frame).

(** Modelled from the spec: the graph object (DGL, absent from the
    repository); edge [i] of [edges] goes from its first to its second
    component, and [edata] holds the edge features. *)
Record DGLGraph := mkGraph {
  nodes : node_data;
  edges : list (nat * nat);
  edata : frame
}.

(** Modelled from the spec: [g.number_of_src_nodes()], [g.number_of_dst_nodes()]
    and [g.number_of_edges()] (DGL, absent from the repository). *)
Definition number_of_src_nodes (g : DGLGraph) : nat :=
  match nodes g with
  | homogeneous n _ => n
  | bipartite n_src _ _ _ => n_src
  end.

Definition number_of_dst_nodes (g : DGLGraph) : nat :=
  match nodes g with
  | homogeneous n _ => n
  | bipartite _ n_dst _ _ => n_dst
  end.

Definition number_of_edges (g : DGLGraph) : nat := length (edges g).

(** Modelled from the spec: [g.srcdata] and [g.dstdata], the "per-endpoint
    feature storage" (DGL, absent from the repository). *)
Definition srcdata (g : DGLGraph) : frame :=
  match nodes g with
  | homogeneous _ ndata => ndata
  | bipartite _ _ srcframe _ => srcframe
  end.

Definition dstdata (g : DGLGraph) : frame :=
  match nodes g with
  | homogeneous _ ndata => ndata
  | bipartite _ _ _ dstframe => dstframe
  end.

(** Modelled from the spec: the graph with field [k] of the source, the
    destination or the edge features replaced (DGL, absent from the
    repository). *)
Definition put_src (k : string) (t : tensor) (g : DGLGraph) : DGLGraph :=
  match nodes g with
  | homogeneous n ndata =>
      mkGraph (homogeneous n (<[k:=t]> ndata)) (edges g) (edata g)
  | bipartite n_src n_dst srcframe dstframe =>
      mkGraph (bipartite n_src n_dst (<[k:=t]> srcframe) dstframe) (edges g) (edata g)
  end.

Definition put_dst (k : string) (t : tensor) (g : DGLGraph) : DGLGraph :=
  match nodes g with
  | homogeneous n ndata =>
      mkGraph (homogeneous n (<[k:=t]> ndata)) (edges g) (edata g)
  | bipartite n_src n_dst srcframe dstframe =>
      mkGraph (bipartite n_src n_dst srcframe (<[k:=t]> dstframe)) (edges g) (edata g)
  end.

Definition put_edge (k : string) (t : tensor) (g : DGLGraph) : DGLGraph :=
  mkGraph (nodes g) (edges g) (<[k:=t]> (edata g)).

(** Modelled from the spec: [g.srcdata[k] = t] (DGL, absent from the
    repository).  The library rejects "malformed tensor shapes": a feature
    has one row per node. *)
Definition set_srcdata (k : string) (t : tensor) (g : DGLGraph) : outcome DGLGraph :=
  if nrows t =? number_of_src_nodes g then Returned (put_src k t g)
  else Raised (DGLError (feature_length_mismatch (number_of_src_nodes g) (nrows t))).

(** Modelled from the spec: [g.edata[k] = t] (DGL, absent from the
    repository); one row per edge. *)
Definition set_edata (k : string) (t : tensor) (g : DGLGraph) : outcome DGLGraph :=
  if nrows t =? number_of_edges g then Returned (put_edge k t g)
  else Raised (DGLError (feature_length_mismatch (number_of_edges g) (nrows t))).

(** Modelled from the spec: reading a field of a frame, [frame[k]] (DGL,
    absent from the repository); a field that is not there is a [KeyError]. *)
Definition getitem (f : frame) (k : string) : outcome tensor :=
  match f !! k with
  | Some t => Returned t
  | None => Raised (KeyError k)
  end.

(** *** Message and reduce functions *)

(** Modelled from the spec: the batch of edges a user-defined message
    function receives (DGL, absent from the repository).  The notebook: edges
    has three members, src, data and dst, the source node feature, the edge
    feature and the destination node feature of every edge. *)
Record EdgeBatch := mkEdgeBatch {
  src : frame;
  data : frame;
  dst : frame
}.

(** A user-defined message function. *)
Definition message_udf := EdgeBatch -> outcome (gmap string tensor).

(** Modelled from the spec: "a set of built-in message/reduce function
    constructors" (DGL, absent from the repository); a message function is
    one of them or a user-defined function. *)
Inductive message_fn :=
| copy_u (u out : string)
| u_mul_e (lhs rhs out : string)
| udf (f : message_udf).

(** Modelled from the spec: the built-in reduce function the notebook uses
    (DGL, absent from the repository). *)
Inductive reduce_fn :=
| mean (msg out : string).

(** Modelled from the spec: the source node of edge [i]; the specification
    speaks of the "directionality of edges" (DGL, absent from the
    repository). *)
Definition edge_src (g : DGLGraph) (i : nat) : nat := fst (nth i (edges g) (0, 0)).

(** Modelled from the spec: the destination node of edge [i] (DGL, absent
    from the repository). *)
Definition edge_dst (g : DGLGraph) (i : nat) : nat := snd (nth i (edges g) (0, 0)).

(** Modelled from the spec: a node feature laid out edge by edge; row [i]
    of the result is row [ids[i]] of [t] (DGL, absent from the repository). *)
Definition gather (ids : list nat) (t : tensor) : tensor :=
  mkTensor (length ids) (ncols t) (fun i j => cell t (nth i ids 0) j).

(** Modelled from the spec: the batch of all the edges of the graph (DGL,
    absent from the repository). *)
Definition edge_batch (g : DGLGraph) : EdgeBatch :=
  mkEdgeBatch (gather (map fst (edges g)) <$> srcdata g)
              (edata g)
              (gather (map snd (edges g)) <$> dstdata g).

(** Modelled from the spec: [fn.copy_u] (DGL, absent from the repository),
    a "per-edge computation producing a message from source/edge/destination
    attributes".  The notebook: copy_u copies the node feature 'h' as the
    messages sent to the neighbours. *)
Definition copy_u_messages (u out : string) (g : DGLGraph) : outcome (gmap string tensor) :=
  h ← getitem (srcdata g) u;
  mret {[ out := mkTensor (number_of_edges g) (ncols h)
                   (fun i j => cell h (edge_src g i) j) ]}.

(** Modelled from the spec: [fn.u_mul_e] (DGL, absent from the
    repository); on every edge, the source node feature times the edge
    feature. *)
Definition u_mul_e_messages (lhs rhs out : string) (g : DGLGraph)
  : outcome (gmap string tensor) :=
  h ← getitem (srcdata g) lhs;
  w ← getitem (edata g) rhs;
  match Torch.broadcast (ncols h) (ncols w) with
  | Some c =>
      mret {[ out := mkTensor (number_of_edges g) c (fun i j =>
                (cell h (edge_src g i) (Torch.bidx (ncols h) j)
                 * cell w i (Torch.bidx (ncols w) j))%Q) ]}
  | None => Raised (DGLError not_broadcastable)
  end.

(** Modelled from the spec: the library's check on what a user-defined
    function returns (DGL, absent from the repository); every message tensor
    has one row per edge. *)
Definition check_messages (n : nat) (msgs : gmap string tensor)
  : outcome (gmap string tensor) :=
  if decide (map_Forall (fun _ t => nrows t = n) msgs) then Returned msgs
  else Raised (DGLError (message_length_mismatch n)).

(** Modelled from the spec: the message phase of a propagation step (DGL,
    absent from the repository); a user-defined function is applied to the
    batch of all edges. *)
Definition messages (mf : message_fn) (g : DGLGraph) : outcome (gmap string tensor) :=
  match mf with
  | copy_u u out => copy_u_messages u out g
  | u_mul_e lhs rhs out => u_mul_e_messages lhs rhs out g
  | udf f => msgs ← f (edge_batch g); check_messages (number_of_edges g) msgs
  end.

(** Modelled from the spec: the edges that arrive at node [v], by their
    position in the edge list (DGL, absent from the repository); [i] is the
    position of the head of [es]. *)
Fixpoint in_edges_from (i : nat) (es : list (nat * nat)) (v : nat) : list nat :=
  match es with
  | [] => []
  | (_, d) :: es' =>
      if d =? v then i :: in_edges_from (S i) es' v
      else in_edges_from (S i) es' v
  end.

(** Modelled from the spec: [g.in_edges(v)] and [g.in_degrees(v)] (DGL,
    absent from the repository). *)
Definition in_edges (g : DGLGraph) (v : nat) : list nat :=
  in_edges_from 0 (edges g) v.

Definition in_degree (g : DGLGraph) (v : nat) : nat := length (in_edges g v).

(** Modelled from the spec: the "messages arriving at a destination node"
    (DGL, absent from the repository); the mailbox of node [v], feature [j]. *)
Definition mailbox (g : DGLGraph) (m : tensor) (v j : nat) : list Q :=
  map (fun i => cell m i j) (in_edges g v).

(** Modelled from the spec: [fn.mean] (DGL, absent from the repository),
    the "aggregation (e.g., mean) of all messages arriving at a destination
    node".  The notebook: the reduce function mean averages all the received
    messages 'm' and stores the result as the new node feature 'h_neigh'.  A
    node that receives no message is given the zero row. *)
Definition mean_of_mailbox (g : DGLGraph) (m : tensor) : tensor :=
  mkTensor (number_of_dst_nodes g) (ncols m) (fun v j =>
    (qsum (mailbox g m v j) / inject_Z (Z.of_nat (Nat.max 1 (in_degree g v))))%Q).

(** Modelled from the spec: the reduce phase of a propagation step (DGL,
    absent from the repository). *)
Definition reduce (rf : reduce_fn) (msgs : gmap string tensor) (g : DGLGraph)
  : outcome DGLGraph :=
  match rf with
  | mean msg out =>
      m ← getitem msgs msg;
      mret (put_dst out (mean_of_mailbox g m) g)
  end.

(** Modelled from the spec: [g.update_all] (DGL, absent from the
    repository), "a generic propagate-and-reduce entry point"; a propagation
    step is "one full round of message computation plus aggregation across
    all edges/nodes of a graph". *)
Definition update_all (mf : message_fn) (rf : reduce_fn) (g : DGLGraph)
  : outcome DGLGraph :=
  msgs ← messages mf g;
  reduce rf msgs g.

(** *** Local scope *)

(** Modelled from the spec: what [g.local_scope()] keeps (DGL, absent from
    the repository), for "a mechanism for scoped (non-persistent) mutation of
    graph-attached data". *)
Record saved_frames := mkSaved { saved_nodes : node_data; saved_edata : frame }.

(** Modelled from the spec: entering the scope of [g.local_scope()] (DGL,
    absent from the repository); the feature frames are set aside.
    Assigning a field inside the scope replaces an entry of the working
    frames and leaves the frames set aside as they were. *)
Definition local_scope_enter (g : DGLGraph) : saved_frames * DGLGraph :=
  (mkSaved (nodes g) (edata g), g).

(** Modelled from the spec: leaving the scope (DGL, absent from the
    repository); mutation is "scoped (non-persistent)", so the frames set
    aside are put back, by whatever way the block is left. *)
Definition local_scope_exit (old : saved_frames) (g : DGLGraph) : DGLGraph :=
  mkGraph (saved_nodes old) (edges g) (saved_edata old).

End DGL.

(** ** The Python side: a heap, exceptions, the [with] statement *)

Import DGL.

(** The calls that leave the notebook. *)
Inductive libcall :=
| call_local_scope
| call_local_scope_exit
| call_set_srcdata (k : string)
| call_set_edata (k : string)
| call_get_dstdata (k : string)
| call_update_all (mf : message_fn) (rf : reduce_fn)
| call_number_of_dst_nodes
| call_getitem_slice
| call_cat
| call_linear
| call_relu.

(** The graph object [g] that [forward] receives is mutable: it is the
    heap's graph.  [calls] records, in order, every call into the libraries
    and the exception it raised, if any. *)
Record heap := mkHeap {
  g : DGLGraph;
  calls : list (libcall * option exn)
}.

Definition Py (A : Type) : Type := heap -> outcome A * heap.

#[global] Instance py_ret : MRet Py := fun A a s => (Returned a, s).
#[global] Instance py_bind : MBind Py := fun A B f m s =>
  match m s with
  | (Returned a, s') => f a s'
  | (Raised e, s') => (Raised e, s')
  end.

Definition raise {A} (e : exn) : Py A := fun s => (Raised e, s).

(** A call into a library: it may change the graph, and it is recorded.  A
    call that raises leaves the graph as it found it. *)
Definition lib {A} (c : libcall) (f : DGLGraph -> outcome (A * DGLGraph)) : Py A :=
  fun s =>
    match f (g s) with
    | Returned (a, g') => (Returned a, mkHeap g' (calls s ++ [(c, None)]))
    | Raised e => (Raised e, mkHeap (g s) (calls s ++ [(c, Some e)]))
    end.

Definition lib_update (c : libcall) (f : DGLGraph -> outcome DGLGraph) : Py unit :=
  lib c (fun g0 => g' ← f g0; mret (tt, g')).

Definition lib_read {A} (c : libcall) (f : DGLGraph -> outcome A) : Py A :=
  lib c (fun g0 => a ← f g0; mret (a, g0)).


Definition update_all_calls (l : list (libcall * option exn))
  : list (message_fn * reduce_fn) :=
  omap (fun c => match fst c with
                 | call_update_all mf rf => Some (mf, rf)
                 | _ => None
                 end) l.

(** Python's context-manager protocol. *)
Record context_manager (T : Type) := mkCM {
  enter : Py T;
  exit : T -> option exn -> Py bool
}.
Arguments mkCM {T} _ _.
Arguments enter {T} _.
Arguments exit {T} _ _ _.

(** [with cm: body], for a body that ends in a [return].  The block is left
    through [exit] whether the body returned or raised; an exception is
    swallowed only when [exit] answers true, and control then continues after
    the block ([None]). *)
Definition py_with {T A} (cm : context_manager T) (body : Py A) : Py (option A) :=
  fun s =>
    match enter cm s with
    | (Raised e, s1) => (Raised e, s1)
    | (Returned t, s1) =>
        match body s1 with
        | (Returned a, s2) =>
            match exit cm t None s2 with
            | (Returned _, s3) => (Returned (Some a), s3)
            | (Raised e, s3) => (Raised e, s3)
            end
        | (Raised e, s2) =>
            match exit cm t (Some e) s2 with
            | (Returned true, s3) => (Returned None, s3)
            | (Returned false, s3) => (Raised e, s3)
            | (Raised e', s3) => (Raised e', s3)
            end
        end
    end.

(** *** The calls of the notebook, as recorded library calls *)

(** Modelled from the spec: [g.local_scope()] as a context manager (DGL,
    absent from the repository), the "mechanism for scoped (non-persistent)
    mutation"; it swallows no exception. *)
Definition local_scope : context_manager saved_frames :=
  mkCM (lib call_local_scope (fun g0 => Returned (local_scope_enter g0)))
       (fun old _ =>
          lib call_local_scope_exit (fun g0 => Returned (false, local_scope_exit old g0))).

(** The calls of the two [forward] methods, each recorded under its name. *)
Definition setitem_srcdata (k : string) (t : tensor) : Py unit :=
  lib_update (call_set_srcdata k) (set_srcdata k t).

Definition setitem_edata (k : string) (t : tensor) : Py unit :=
  lib_update (call_set_edata k) (set_edata k t).

Definition getitem_dstdata (k : string) : Py tensor :=
  lib_read (call_get_dstdata k) (fun g0 => getitem (dstdata g0) k).

Definition g_update_all (mf : message_fn) (rf : reduce_fn) : Py unit :=
  lib_update (call_update_all mf rf) (update_all mf rf).

Definition g_number_of_dst_nodes : Py nat :=
  lib_read call_number_of_dst_nodes (fun g0 => Returned (number_of_dst_nodes g0)).

Definition getitem_slice (t : tensor) (n : nat) : Py tensor :=
  lib_read call_getitem_slice (fun _ => Returned (Torch.slice_to t n)).

Definition torch_cat (ts : list tensor) (dim : nat) : Py tensor :=
  lib_read call_cat (fun _ => Torch.cat ts dim).

Definition call_module (l : Torch.Linear) (x : tensor) : Py tensor :=
  lib_read call_linear (fun _ => Torch.linear l x).

Definition F_relu (x : tensor) : Py tensor :=
  lib_read call_relu (fun _ => Returned (Torch.relu x)).

(** *** Module-level names *)

Inductive module_name := mod_dgl | mod_torch | mod_nn | mod_F | mod_fn.

Inductive pyobj :=
| py_module (m : module_name)
| py_class (name : string)
| py_function (name : string)
| py_tensor (t : tensor).

(** The names the notebook's cells bind at module level: the imports of
    cells 1 and 4, the class of cells 4 and 8, the function of cell 10. *)
Definition notebook_globals : gmap string pyobj :=
  {[ "dgl" := py_module mod_dgl;
     "torch" := py_module mod_torch;
     "nn" := py_module mod_nn;
     "F" := py_module mod_F;
     "fn" := py_module mod_fn;
     "SAGEConv" := py_class "SAGEConv";
     "u_mul_e_udf" := py_function "u_mul_e_udf" ]}.

(** Reading a name that the function does not assign: it is looked up at
    module level (no built-in is called [h_dst]). *)
Definition load_global (name : string) : Py pyobj :=
  match notebook_globals !! name with
  | Some o => mret o
  | None => raise (NameError name)
  end.

Definition module_eqb (a b : module_name) : bool :=
  match a, b with
  | mod_dgl, mod_dgl | mod_torch, mod_torch | mod_nn, mod_nn
  | mod_F, mod_F | mod_fn, mod_fn => true
  | _, _ => false
  end.

(** [o.attr(...)] for an attribute that module [m] provides. *)
Definition attr_of (m : module_name) (o : pyobj) : Py unit :=
  match o with
  | py_module m' => if module_eqb m m' then mret tt else raise AttributeError
  | _ => raise AttributeError
  end.

Definition as_tensor (o : pyobj) : Py tensor :=
  match o with
  | py_tensor t => mret t
  | _ => raise TypeError
  end.

(** ** The notebook *)

(** [fn.copy_u], [fn.mean], [fn.u_mul_e]: the constructors of [dgl.function],
    reached through the name that cell 4 imports the module under. *)
Definition fn_copy_u (u out : string) : Py message_fn :=
  fn ← load_global "fn"; attr_of mod_fn fn;; mret (copy_u u out).

Definition fn_u_mul_e (lhs rhs out : string) : Py message_fn :=
  fn ← load_global "fn"; attr_of mod_fn fn;; mret (u_mul_e lhs rhs out).

Definition fn_mean (msg out : string) : Py reduce_fn :=
  fn ← load_global "fn"; attr_of mod_fn fn;; mret (mean msg out).

(** Cell 4: the first [SAGEConv]. *)
Module Cell4.

Record SAGEConv := mkSAGEConv { linear : Torch.Linear }.

(** [__init__]: [self.linear = nn.Linear(in_feat * 2, out_feat)].  The
    weight [W] and the bias [b] stand for what the initialiser of
    [nn.Linear] draws. *)
Definition __init__ (in_feat out_feat : nat) (W : nat -> nat -> Q) (b : nat -> Q)
  : SAGEConv :=
  mkSAGEConv (Torch.mkLinear (in_feat * 2) out_feat W b).

(** [forward(self, g, h)]; the graph [g] is the heap's.  The result is
    [None] when control falls off the end of the method. *)
Definition forward (self : SAGEConv) (h : tensor) : Py (option tensor) :=
  py_with local_scope (
    setitem_srcdata "h" h;;
    mf ← fn_copy_u "h" "m";
    rf ← fn_mean "m" "h_neigh";
    g_update_all mf rf;;
    h_neigh ← getitem_dstdata "h_neigh";
    torch ← load_global "torch"; attr_of mod_torch torch;;
    h_dst ← load_global "h_dst";
    h_dst ← as_tensor h_dst;
    h_total ← torch_cat [h_dst; h_neigh] 1;
    F ← load_global "F"; attr_of mod_F F;;
    y ← call_module (linear self) h_total;
    F_relu y).

End Cell4.

(** Cell 10: the user-defined message function. *)
Module Cell10.

Definition u_mul_e_udf (edges : EdgeBatch) : outcome (gmap string tensor) :=
  h ← getitem (src edges) "h";
  w ← getitem (data edges) "w";
  m ← Torch.mul h w;
  mret {[ "m" := m ]}.

End Cell10.

(** Cell 8: the second [SAGEConv], with edge weights. *)
Module Cell8.

Record SAGEConv := mkSAGEConv { linear : Torch.Linear }.

(** [__init__], as in cell 4. *)
Definition __init__ (in_feat out_feat : nat) (W : nat -> nat -> Q) (b : nat -> Q)
  : SAGEConv :=
  mkSAGEConv (Torch.mkLinear (in_feat * 2) out_feat W b).

(** [forward(self, g, h, w)]; the graph [g] is the heap's. *)
Definition forward (self : SAGEConv) (h w : tensor) : Py (option tensor) :=
  n ← g_number_of_dst_nodes;
  h_dst ← getitem_slice h n;
  r ← py_with local_scope (
    setitem_srcdata "h" h;;
    setitem_edata "w" w;;
    mf ← fn_u_mul_e "h" "w" "m";
    rf ← fn_mean "m" "h_neigh";
    g_update_all mf rf;;
    h_neigh ← getitem_dstdata "h_neigh";
    torch ← load_global "torch"; attr_of mod_torch torch;;
    h_total ← torch_cat [h_dst; h_neigh] 1;
    F ← load_global "F"; attr_of mod_F F;;
    y ← call_module (linear self) h_total;
    F_relu y);
  mret r.

(** The user-defined function of cell 10 as a message function. *)
Definition as_message_fn (o : pyobj) : Py message_fn :=
  match o with
  | py_function "u_mul_e_udf" => mret (udf Cell10.u_mul_e_udf)
  | _ => raise TypeError
  end.

(** [forward] with [u_mul_e_udf] in the place of [fn.u_mul_e('h', 'w', 'm')],
    the substitution the notebook describes under cell 9. *)
Definition forward_udf (self : SAGEConv) (h w : tensor) : Py (option tensor) :=
  n ← g_number_of_dst_nodes;
  h_dst ← getitem_slice h n;
  r ← py_with local_scope (
    setitem_srcdata "h" h;;
    setitem_edata "w" w;;
    f ← load_global "u_mul_e_udf";
    mf ← as_message_fn f;
    rf ← fn_mean "m" "h_neigh";
    g_update_all mf rf;;
    h_neigh ← getitem_dstdata "h_neigh";
    torch ← load_global "torch"; attr_of mod_torch torch;;
    h_total ← torch_cat [h_dst; h_neigh] 1;
    F ← load_global "F"; attr_of mod_F F;;
    y ← call_module (linear self) h_total;
    F_relu y);
  mret r.

End Cell8.

(** Calling a method on graph [g0], from an empty record of calls. *)
Definition run {A} (p : Py A) (g0 : DGLGraph) : outcome A * heap :=
  p (mkHeap g0 []).


(** ** Symbolic runs

    What a run of each [forward] amounts to, call by call: the outcome, the
    graph that is left and the calls recorded, by cases on what the library
    answers. *)

Definition ok (c : libcall) : libcall * option exn := (c, None).
Definition failed (c : libcall) (e : exn) : libcall * option exn := (c, Some e).

(** The heap after the [with g.local_scope()] block that was entered on
    graph [g0] is left on graph [gi], [tr] being the calls made inside. *)
Definition left_scope (g0 gi : DGLGraph) (pre tr : list (libcall * option exn)) : heap :=
  mkHeap (local_scope_exit (local_scope_enter g0).1 gi)
         (pre ++ ok call_local_scope :: tr ++ [ok call_local_scope_exit]).

Definition Cell4_run (h : tensor) (g0 : DGLGraph) : outcome (option tensor) * heap :=
  let mf := copy_u "h" "m" in
  let rf := mean "m" "h_neigh" in
  match set_srcdata "h" h g0 with
  | Raised e => (Raised e, left_scope g0 g0 [] [failed (call_set_srcdata "h") e])
  | Returned g1 =>
  match update_all mf rf g1 with
  | Raised e =>
      (Raised e, left_scope g0 g1 []
         [ok (call_set_srcdata "h"); failed (call_update_all mf rf) e])
  | Returned g2 =>
  match getitem (dstdata g2) "h_neigh" with
  | Raised e =>
      (Raised e, left_scope g0 g2 []
         [ok (call_set_srcdata "h"); ok (call_update_all mf rf);
          failed (call_get_dstdata "h_neigh") e])
  | Returned _ =>
      (Raised (NameError "h_dst"), left_scope g0 g2 []
         [ok (call_set_srcdata "h"); ok (call_update_all mf rf);
          ok (call_get_dstdata "h_neigh")])
  end end end.

Definition Cell8_run (mf : message_fn) (l : Torch.Linear) (h w : tensor) (g0 : DGLGraph)
  : outcome (option tensor) * heap :=
  let rf := mean "m" "h_neigh" in
  let pre := [ok call_number_of_dst_nodes; ok call_getitem_slice] in
  let h_dst := Torch.slice_to h (number_of_dst_nodes g0) in
  match set_srcdata "h" h g0 with
  | Raised e => (Raised e, left_scope g0 g0 pre [failed (call_set_srcdata "h") e])
  | Returned g1 =>
  match set_edata "w" w g1 with
  | Raised e =>
      (Raised e, left_scope g0 g1 pre
         [ok (call_set_srcdata "h"); failed (call_set_edata "w") e])
  | Returned g2 =>
  match update_all mf rf g2 with
  | Raised e =>
      (Raised e, left_scope g0 g2 pre
         [ok (call_set_srcdata "h"); ok (call_set_edata "w");
          failed (call_update_all mf rf) e])
  | Returned g3 =>
  match getitem (dstdata g3) "h_neigh" with
  | Raised e =>
      (Raised e, left_scope g0 g3 pre
         [ok (call_set_srcdata "h"); ok (call_set_edata "w");
          ok (call_update_all mf rf); failed (call_get_dstdata "h_neigh") e])
  | Returned h_neigh =>
  match Torch.cat [h_dst; h_neigh] 1 with
  | Raised e =>
      (Raised e, left_scope g0 g3 pre
         [ok (call_set_srcdata "h"); ok (call_set_edata "w");
          ok (call_update_all mf rf); ok (call_get_dstdata "h_neigh");
          failed call_cat e])
  | Returned h_total =>
  match Torch.linear l h_total with
  | Raised e =>
      (Raised e, left_scope g0 g3 pre
         [ok (call_set_srcdata "h"); ok (call_set_edata "w");
          ok (call_update_all mf rf); ok (call_get_dstdata "h_neigh");
          ok call_cat; failed call_linear e])
  | Returned y =>
      (Returned (Some (Torch.relu y)), left_scope g0 g3 pre
         [ok (call_set_srcdata "h"); ok (call_set_edata "w");
          ok (call_update_all mf rf); ok (call_get_dstdata "h_neigh");
          ok call_cat; ok call_linear; ok call_relu])
  end end end end end end.

(** ** Notions the properties are stated with *)

(** The edges that arrive at node [v]: the positions of the edge list whose
    edge has destination [v]. *)
Definition arriving (g0 : DGLGraph) (v : nat) : list nat :=
  filter (fun i => edge_dst g0 i = v) (seq 0 (number_of_edges g0)).

(** Every edge joins a source node to a destination node of the graph. *)
Definition well_formed (g0 : DGLGraph) : Prop :=
  Forall (fun e => e.1 < number_of_src_nodes g0 ∧ e.2 < number_of_dst_nodes g0)
         (edges g0).

(** The message of one edge, from the feature row [hu] of its source node
    and its own feature row [we]; [cu] and [cw] are the two feature widths. *)
Definition edge_message (cu cw : nat) (hu we : nat -> Q) (j : nat) : Q :=
  (hu (Torch.bidx cu j) * we (Torch.bidx cw j))%Q.

(** Two tensors of the same shape with the same entries. *)
Definition same_tensor (a b : tensor) : Prop :=
  nrows a = nrows b ∧ ncols a = ncols b ∧
  ∀ i j, i < nrows a → j < ncols a → cell a i j = cell b i j.

(** Two library calls end the same way: both return the same tensor, or
    both raise. *)
Definition same_outcome (o1 o2 : outcome tensor) : Prop :=
  match o1, o2 with
  | Returned a, Returned b => same_tensor a b
  | Raised _, Raised _ => True
  | _, _ => False
  end.

(** Two calls end the same way: both return the same tensor, or neither
    returns. *)
Definition same_result (o1 o2 : outcome (option tensor)) : Prop :=
  match o1, o2 with
  | Returned (Some a), Returned (Some b) => same_tensor a b
  | Returned None, Returned None => True
  | Raised _, Raised _ => True
  | _, _ => False
  end.




(** The calls that write to the graph's feature data. *)
Definition writes_features (c : libcall) : bool :=
  match c with
  | call_set_srcdata _ | call_set_edata _ | call_update_all _ _ => true
  | _ => false
  end.

(** The recorded calls [l] keep every write inside one local scope. *)
Definition writes_inside_scope (l : list (libcall * option exn)) : Prop :=
  ∃ pre tr : list (libcall * option exn),
    l = (pre ++ ok call_local_scope :: tr ++ [ok call_local_scope_exit])%list ∧
    Forall (fun c => writes_features c.1 = false) pre.

(** *** Sample inputs *)

(** Three nodes; edges 0 -> 1, 2 -> 1 and 1 -> 0. *)
Definition g_ex : DGLGraph := mkGraph (homogeneous 3 ∅) [(0, 1); (2, 1); (1, 0)] ∅.
Definition h_ex : tensor := of_lists 2 [[1; 2]; [3; 4]; [5; 7]]%Q.
Definition w_ex : tensor := of_lists 1 [[1]; [2]; [3]]%Q.
Definition W_ex (k j : nat) : Q := if k =? 0 then 1%Q else (-1)%Q.
Definition b_ex (k : nat) : Q := 0%Q.

(** Two source nodes, one destination node, one edge 1 -> 0; and a feature
    with a single row. *)
Definition g_block : DGLGraph := mkGraph (bipartite 2 1 ∅ ∅) [(1, 0)] ∅.
Definition h_short : tensor := of_lists 1 [[1]]%Q.
Definition w_one : tensor := of_lists 1 [[1]]%Q.

(** Two nodes and the edge 1 -> 0. *)
Definition g_pair : DGLGraph := mkGraph (homogeneous 2 ∅) [(1, 0)] ∅.

(** ** Further notions *)

(** The shapes with which the second [forward] goes through: a row of [h]
    for every source node, of which there are at least as many as
    destination nodes, a row of [w] for every edge, widths that go together,
    and a linear layer that takes the concatenated width. *)
Definition shapes_fit (l : Torch.Linear) (h w : tensor) (g0 : DGLGraph) : Prop :=
  nrows h = number_of_src_nodes g0 ∧
  nrows w = number_of_edges g0 ∧
  number_of_dst_nodes g0 ≤ nrows h ∧
  ∃ c, Torch.broadcast (ncols h) (ncols w) = Some c ∧
       ncols h + c = Torch.in_features l.


(** Two graphs with the same nodes and edges, whatever features they
    carry. *)
Definition same_structure (ga gb : DGLGraph) : Prop :=
  number_of_src_nodes ga = number_of_src_nodes gb ∧
  number_of_dst_nodes ga = number_of_dst_nodes gb ∧
  edges ga = edges gb.


(** The calls that compute on tensors outside the graph. *)
Definition tensor_call (c : libcall) : bool :=
  match c with
  | call_getitem_slice | call_cat | call_linear | call_relu => true
  | _ => false
  end.


(** What the propagation of the second [forward] leaves in 'h_neigh': the
    graph is the one on which [h] and [w] have been assigned. *)
Definition weighted_h_neigh (mf : message_fn) (h w : tensor) (g0 : DGLGraph)
  : outcome tensor :=
  g3 ← update_all mf (mean "m" "h_neigh") (put_edge "w" w (put_src "h" h g0));
  getitem (dstdata g3) "h_neigh".


(** *** More sample inputs *)

(** The sample graph with features already on it: a node feature 'h' and a
    node feature 'h_neigh'. *)
Definition g_ex_loaded : DGLGraph :=
  mkGraph (homogeneous 3 {[ "h" := w_ex; "h_neigh" := h_ex ]})
          [(0, 1); (2, 1); (1, 0)]
          {[ "w" := h_ex ]}.

(** The same outcome to the letter: tensors of the same shape with the same
    entries, or the same exception. *)
Definition same_result_exactly (o1 o2 : outcome (option tensor)) : Prop :=
  match o1, o2 with
  | Returned (Some a), Returned (Some b) => same_tensor a b
  | Returned None, Returned None => True
  | Raised e1, Raised e2 => e1 = e2
  | _, _ => False
  end.

(** Three weights of width 3 for the three edges of [g_ex]: a width that
    does not go with the two columns of [h_ex]. *)
Definition w_wide : tensor := of_lists 3 [[1; 1; 1]; [1; 1; 1]; [1; 1; 1]]%Q.

(** ** Tensors of one dimension and of other dtypes *)

Module Any.

(** Modelled from the spec: the dtype of a tensor (PyTorch, absent from the
    repository); the default floating dtype, the wider one and the default
    integer dtype. *)
Inductive dtype := float32 | float64 | int64.

Definition floating (d : dtype) : bool :=
  match d with
  | int64 => false
  | _ => true
  end.

Definition dtype_eqb (a b : dtype) : bool :=
  match a, b with
  | float32, float32 | float64, float64 | int64, int64 => true
  | _, _ => false
  end.

(** Modelled from the spec: the dtype of [a * b] (PyTorch's type promotion,
    absent from the repository): a floating dtype wins over an integer one
    and the wider floating dtype over the narrower. *)
Definition promote (a b : dtype) : dtype :=
  match a, b with
  | float64, _ | _, float64 => float64
  | float32, _ | _, float32 => float32
  | int64, int64 => int64
  end.

(** Modelled from the spec: a tensor of one dimension, of shape (n,), or of
    two, with its dtype (PyTorch, absent from the repository).  The
    [tensor]s of the rest of the development are the matrices of dtype
    [float32]. *)
Inductive anytensor :=
| vector (d : dtype) (n : nat) (entry : nat -> Q)
| matrix (d : dtype) (t : tensor).

Definition dtype_of (a : anytensor) : dtype :=
  match a with
  | vector d _ _ | matrix d _ => d
  end.

Definition vector_of (d : dtype) (l : list Q) : anytensor :=
  vector d (length l) (fun i => nth i l 0%Q).

(** Modelled from the spec: how PyTorch lines two shapes up for [a * b],
    from the last dimension (absent from the repository): a vector of [n]
    entries goes along the columns, as a single row. *)
Definition as_row (a : anytensor) : tensor :=
  match a with
  | vector _ n f => mkTensor 1 n (fun _ j => f j)
  | matrix _ t => t
  end.

(** Modelled from the spec: how DGL's built-in message functions line a
    feature up, from the first dimension, which counts the nodes or the
    edges (absent from the repository): a vector holds one scalar per edge,
    as a single column. *)
Definition as_column (a : anytensor) : tensor :=
  match a with
  | vector _ n f => mkTensor n 1 (fun i _ => f i)
  | matrix _ t => t
  end.

(** Modelled from the spec: [a * b] on such tensors (PyTorch, absent from
    the repository); [Torch.mul] on the shapes lined up from the last
    dimension, with the promoted dtype. *)
Definition mul (a b : anytensor) : outcome anytensor :=
  m ← Torch.mul (as_row a) (as_row b);
  mret (match a, b with
        | vector _ _ _, vector _ _ _ =>
            vector (promote (dtype_of a) (dtype_of b)) (ncols m) (cell m 0)
        | _, _ => matrix (promote (dtype_of a) (dtype_of b)) m
        end).

(** Modelled from the spec: a batch of edges whose features are such
    tensors; [edges.src], [edges.data] and [edges.dst] (DGL, absent from the
    repository). *)
Record EdgeBatch := mkEdgeBatch {
  src : gmap string anytensor;
  data : gmap string anytensor;
  dst : gmap string anytensor
}.

Definition getitem (f : gmap string anytensor) (k : string) : outcome anytensor :=
  match f !! k with
  | Some t => Returned t
  | None => Raised (KeyError k)
  end.

(** [u_mul_e_udf] of the notebook on such a batch: the same two look-ups and
    the same product as [Cell10.u_mul_e_udf]. *)
Definition u_mul_e_udf (edges : EdgeBatch) : outcome (gmap string anytensor) :=
  h ← getitem (src edges) "h";
  w ← getitem (data edges) "w";
  m ← mul h w;
  mret {[ "m" := m ]}.

(** Modelled from the spec: the built-in [fn.u_mul_e(lhs, rhs, out)] on the
    same batch (DGL, absent from the repository).  It takes operands of one
    floating dtype, with at least one column, lines them up edge by edge and
    broadcasts the feature widths. *)
Definition u_mul_e (lhs rhs out : string) (edges : EdgeBatch)
  : outcome (gmap string anytensor) :=
  h ← getitem (src edges) lhs;
  w ← getitem (data edges) rhs;
  let a := as_column h in
  let b := as_column w in
  if negb (floating (dtype_of h) && dtype_eqb (dtype_of h) (dtype_of w))
  then Raised (DGLError unsupported_dtype)
  else if negb (nrows a =? nrows b)
  then Raised (DGLError (feature_length_mismatch (nrows a) (nrows b)))
  else if (ncols a =? 0) || (ncols b =? 0)
  then Raised (DGLError empty_feature)
  else
    match Torch.broadcast (ncols a) (ncols b) with
    | Some c =>
        mret {[ out := matrix (dtype_of h) (mkTensor (nrows a) c (fun i j =>
                  edge_message (ncols a) (ncols b) (cell a i) (cell b i) j)) ]}
    | None => Raised (DGLError not_broadcastable)
    end.

(** The batch of a graph's edges, with the dtype [d] on every feature. *)
Definition of_batch (d : dtype) (edges : DGL.EdgeBatch) : EdgeBatch :=
  mkEdgeBatch (matrix d <$> DGL.src edges) (matrix d <$> DGL.data edges)
              (matrix d <$> DGL.dst edges).



(** Modelled from the spec: what an entry of a floating-point tensor can be
    (PyTorch, absent from the repository): a finite value, for which the
    rationals stand here, one of the two infinities, or NaN. *)
Inductive value :=
| finite (q : Q)
| pos_infinity
| neg_infinity
| nan.

(** Modelled from the spec: [F.relu] on one such entry (PyTorch, absent from
    the repository); the larger of zero and the entry, and NaN for NaN. *)
Definition relu_value (v : value) : value :=
  match v with
  | finite q => finite (Qmax 0 q)
  | pos_infinity => pos_infinity
  | neg_infinity => finite 0
  | nan => nan
  end.

Definition nonnegative (v : value) : Prop :=
  match v with
  | finite q => (0 <= q)%Q
  | pos_infinity => True
  | neg_infinity | nan => False
  end.

End Any.

(** *** Sample batches *)

(** The three edges of [g_ex] with the rows of [h_ex] at their sources, and
    a weight of one dimension: one scalar per edge. *)
Definition batch_vector_weight : Any.EdgeBatch :=
  Any.mkEdgeBatch
    {[ "h" := Any.matrix Any.float32 (of_lists 2 [[1; 2]; [5; 7]; [3; 4]]%Q) ]}
    {[ "w" := Any.vector_of Any.float32 [1; 2; 3]%Q ]}
    ∅.

(** The same edges with the integer weights of shape (3, 1). *)
Definition batch_integer_weight : Any.EdgeBatch :=
  Any.mkEdgeBatch
    {[ "h" := Any.matrix Any.float32 (of_lists 2 [[1; 2]; [5; 7]; [3; 4]]%Q) ]}
    {[ "w" := Any.matrix Any.int64 w_ex ]}
    ∅.


(** * Properties *)

(** ** The graph library: frames and structure *)

Section Frames.
Context (k : string) (t : tensor) (g0 : DGLGraph).

Lemma edges_put_src : edges (put_src k t g0) = edges g0.
Proof. unfold put_src. by destruct (nodes g0). Qed.

Lemma edges_put_dst : edges (put_dst k t g0) = edges g0.
Proof. unfold put_dst. by destruct (nodes g0). Qed.

Lemma edges_put_edge : edges (put_edge k t g0) = edges g0.
Proof. reflexivity. Qed.

Lemma srcdata_put_src : srcdata (put_src k t g0) = <[k:=t]> (srcdata g0).
Proof. unfold put_src, srcdata. by destruct (nodes g0). Qed.

Lemma dstdata_put_dst : dstdata (put_dst k t g0) = <[k:=t]> (dstdata g0).
Proof. unfold put_dst, dstdata. by destruct (nodes g0). Qed.

Lemma srcdata_put_edge : srcdata (put_edge k t g0) = srcdata g0.
Proof. reflexivity. Qed.

Lemma edata_put_edge : edata (put_edge k t g0) = <[k:=t]> (edata g0).
Proof. reflexivity. Qed.

Lemma edata_put_src : edata (put_src k t g0) = edata g0.
Proof. unfold put_src. by destruct (nodes g0). Qed.

Lemma number_of_dst_nodes_put_src :
  number_of_dst_nodes (put_src k t g0) = number_of_dst_nodes g0.
Proof. unfold put_src, number_of_dst_nodes. by destruct (nodes g0). Qed.

Lemma number_of_dst_nodes_put_edge :
  number_of_dst_nodes (put_edge k t g0) = number_of_dst_nodes g0.
Proof. reflexivity. Qed.

Lemma set_srcdata_Returned g1 :
  set_srcdata k t g0 = Returned g1 ↔
  nrows t = number_of_src_nodes g0 ∧ g1 = put_src k t g0.
Proof.
  unfold set_srcdata. destruct (Nat.eqb_spec (nrows t) (number_of_src_nodes g0)).
  - split; [intros [= <-]; done | intros [_ ->]; done].
  - split; [done | intros [? _]; done].
Qed.

Lemma set_edata_Returned g1 :
  set_edata k t g0 = Returned g1 ↔
  nrows t = number_of_edges g0 ∧ g1 = put_edge k t g0.
Proof.
  unfold set_edata. destruct (Nat.eqb_spec (nrows t) (number_of_edges g0)).
  - split; [intros [= <-]; done | intros [_ ->]; done].
  - split; [done | intros [? _]; done].
Qed.

End Frames.

Lemma update_all_edges mf rf g0 g1 :
  update_all mf rf g0 = Returned g1 → edges g1 = edges g0.
Proof.
  unfold update_all. destruct (messages mf g0) as [msgs|]; [|done].
  destruct rf as [msg out]. simpl. destruct (getitem msgs msg); [|done].
  intros [= <-]. apply edges_put_dst.
Qed.

(** Leaving the scope gives back the graph it was entered on, as long as the
    block kept the edges. *)
Lemma local_scope_exit_enter g0 gi :
  edges gi = edges g0 → local_scope_exit (local_scope_enter g0).1 gi = g0.
Proof. unfold local_scope_exit. simpl. intros ->. by destruct g0. Qed.

(** ** Runs of the notebook's methods *)

Lemma fn_copy_u_run u out s : fn_copy_u u out s = (Returned (copy_u u out), s).
Proof. reflexivity. Qed.

Lemma fn_u_mul_e_run lhs rhs out s :
  fn_u_mul_e lhs rhs out s = (Returned (u_mul_e lhs rhs out), s).
Proof. reflexivity. Qed.

Lemma fn_mean_run msg out s : fn_mean msg out s = (Returned (mean msg out), s).
Proof. reflexivity. Qed.

Lemma load_global_udf_run s :
  load_global "u_mul_e_udf" s = (Returned (py_function "u_mul_e_udf"), s).
Proof. reflexivity. Qed.

Lemma load_global_torch_run s :
  load_global "torch" s = (Returned (py_module mod_torch), s).
Proof. reflexivity. Qed.

Lemma load_global_F_run s : load_global "F" s = (Returned (py_module mod_F), s).
Proof. reflexivity. Qed.

Lemma load_global_h_dst_run s : load_global "h_dst" s = (Raised (NameError "h_dst"), s).
Proof. reflexivity. Qed.

Lemma bind_run {A B} (m : Py A) (f : A → Py B) s :
  (m ≫= f) s = match m s with
               | (Returned a, s') => f a s'
               | (Raised e, s') => (Raised e, s')
               end.
Proof. reflexivity. Qed.

Ltac unfold_calls :=
  unfold setitem_srcdata, setitem_edata, g_update_all, getitem_dstdata,
    g_number_of_dst_nodes, getitem_slice, torch_cat, call_module, F_relu,
    lib_update, lib_read, lib.

Ltac run_step :=
  rewrite bind_run;
  rewrite ?fn_copy_u_run, ?fn_u_mul_e_run, ?fn_mean_run, ?load_global_udf_run,
    ?load_global_torch_run, ?load_global_F_run, ?load_global_h_dst_run;
  simpl.

Lemma Cell4_forward_run self h g0 :
  run (Cell4.forward self h) g0 = Cell4_run h g0.
Proof.
  unfold run, Cell4.forward, Cell4_run, left_scope, py_with, local_scope.
  unfold_calls; simpl.
  repeat run_step. destruct (set_srcdata "h" h g0) as [g1|e]; simpl; [|done].
  repeat run_step. destruct (update_all _ _ g1) as [g2|e]; simpl; [|done].
  repeat run_step. destruct (getitem (dstdata g2) "h_neigh") as [h_neigh|e]; simpl; [|done].
  repeat run_step. done.
Qed.

Lemma Cell8_forward_run self h w g0 :
  run (Cell8.forward self h w) g0
  = Cell8_run (u_mul_e "h" "w" "m") (Cell8.linear self) h w g0.
Proof.
  unfold run, Cell8.forward, Cell8_run, left_scope, py_with, local_scope.
  unfold_calls; simpl.
  repeat run_step. destruct (set_srcdata "h" h g0) as [g1|e]; simpl; [|done].
  repeat run_step. destruct (set_edata "w" w g1) as [g2|e]; simpl; [|done].
  repeat run_step. destruct (update_all _ _ g2) as [g3|e]; simpl; [|done].
  repeat run_step. destruct (getitem (dstdata g3) "h_neigh") as [h_neigh|e]; simpl; [|done].
  repeat run_step. destruct (Torch.cat _ 1) as [h_total|e]; simpl; [|done].
  repeat run_step. destruct (Torch.linear _ h_total) as [y|e]; simpl; done.
Qed.

Lemma Cell8_forward_udf_run self h w g0 :
  run (Cell8.forward_udf self h w) g0
  = Cell8_run (udf Cell10.u_mul_e_udf) (Cell8.linear self) h w g0.
Proof.
  unfold run, Cell8.forward_udf, Cell8_run, left_scope, py_with, local_scope.
  unfold_calls; simpl.
  repeat run_step. destruct (set_srcdata "h" h g0) as [g1|e]; simpl; [|done].
  repeat run_step. destruct (set_edata "w" w g1) as [g2|e]; simpl; [|done].
  repeat run_step. destruct (update_all _ _ g2) as [g3|e]; simpl; [|done].
  repeat run_step. destruct (getitem (dstdata g3) "h_neigh") as [h_neigh|e]; simpl; [|done].
  repeat run_step. destruct (Torch.cat _ 1) as [h_total|e]; simpl; [|done].
  repeat run_step. destruct (Torch.linear _ h_total) as [y|e]; simpl; done.
Qed.

(** ** What the runs leave behind *)

Lemma set_srcdata_edges k t g0 g1 :
  set_srcdata k t g0 = Returned g1 → edges g1 = edges g0.
Proof. intros [_ ->]%set_srcdata_Returned. apply edges_put_src. Qed.

Lemma set_edata_edges k t g0 g1 :
  set_edata k t g0 = Returned g1 → edges g1 = edges g0.
Proof. intros [_ ->]%set_edata_Returned. apply edges_put_edge. Qed.

Lemma left_scope_graph g0 gi pre tr :
  edges gi = edges g0 → g (left_scope g0 gi pre tr) = g0.
Proof. intros H. unfold left_scope. simpl. by apply local_scope_exit_enter. Qed.

Lemma Cell4_run_graph h g0 : g (Cell4_run h g0).2 = g0.
Proof.
  unfold Cell4_run.
  destruct (set_srcdata "h" h g0) as [g1|e] eqn:E1; cbn [fst snd];
    [|by apply left_scope_graph].
  apply set_srcdata_edges in E1.
  destruct (update_all _ _ g1) as [g2|e] eqn:E2; cbn [fst snd];
    [|by apply left_scope_graph].
  apply update_all_edges in E2.
  destruct (getitem (dstdata g2) "h_neigh"); cbn [fst snd];
    apply left_scope_graph; congruence.
Qed.

Lemma Cell8_run_graph mf l h w g0 : g (Cell8_run mf l h w g0).2 = g0.
Proof.
  unfold Cell8_run.
  destruct (set_srcdata "h" h g0) as [g1|e] eqn:E1; cbn [fst snd];
    [|by apply left_scope_graph].
  apply set_srcdata_edges in E1.
  destruct (set_edata "w" w g1) as [g2|e] eqn:E2; cbn [fst snd];
    [|by apply left_scope_graph].
  apply set_edata_edges in E2.
  destruct (update_all _ _ g2) as [g3|e] eqn:E3; cbn [fst snd];
    [|apply left_scope_graph; congruence].
  apply update_all_edges in E3.
  assert (edges g3 = edges g0) by congruence.
  destruct (getitem (dstdata g3) "h_neigh"); cbn [fst snd]; [|by apply left_scope_graph].
  destruct (Torch.cat _ 1); cbn [fst snd]; [|by apply left_scope_graph].
  destruct (Torch.linear l _); cbn [fst snd]; by apply left_scope_graph.
Qed.



(** ** Propagation with the built-in functions *)

Lemma getitem_insert (f : frame) k t : getitem (<[k:=t]> f) k = Returned t.
Proof. unfold getitem. by rewrite lookup_insert_eq. Qed.


Lemma reduce_mean msgs msg out m g0 :
  msgs !! msg = Some m →
  reduce (mean msg out) msgs g0 = Returned (put_dst out (mean_of_mailbox g0 m) g0).
Proof. intros H. unfold reduce, getitem. by rewrite H. Qed.

Lemma update_all_mean mf msgs msg out m g0 :
  messages mf g0 = Returned msgs → msgs !! msg = Some m →
  update_all mf (mean msg out) g0 = Returned (put_dst out (mean_of_mailbox g0 m) g0).
Proof. intros H1 H2. unfold update_all. rewrite H1. simpl. by apply reduce_mean. Qed.

Lemma messages_copy_u u out h g0 :
  srcdata g0 !! u = Some h →
  messages (copy_u u out) g0
  = Returned {[ out := mkTensor (number_of_edges g0) (ncols h)
                         (fun i j => cell h (edge_src g0 i) j) ]}.
Proof. intros H. simpl. unfold copy_u_messages, getitem. by rewrite H. Qed.

(** ** The first [forward] *)

Lemma Cell4_run_shaped h g0 :
  nrows h = number_of_src_nodes g0 →
  ∃ g2, (Cell4_run h g0).1 = Raised (NameError "h_dst") ∧
        calls (Cell4_run h g0).2 =
          [ok call_local_scope; ok (call_set_srcdata "h");
           ok (call_update_all (copy_u "h" "m") (mean "m" "h_neigh"));
           ok (call_get_dstdata "h_neigh"); ok call_local_scope_exit] ∧
        update_all (copy_u "h" "m") (mean "m" "h_neigh") (put_src "h" h g0) = Returned g2.
Proof.
  intros Hn. unfold Cell4_run.
  assert (set_srcdata "h" h g0 = Returned (put_src "h" h g0)) as ->
    by by apply set_srcdata_Returned.
  erewrite update_all_mean.
  2: { apply messages_copy_u. rewrite srcdata_put_src. apply lookup_insert_eq. }
  2: apply lookup_singleton_eq.
  rewrite dstdata_put_dst, getitem_insert. eauto.
Qed.

Lemma Cell4_run_misshaped h g0 :
  nrows h ≠ number_of_src_nodes g0 →
  let e := DGLError (feature_length_mismatch (number_of_src_nodes g0) (nrows h)) in
  (Cell4_run h g0).1 = Raised e ∧
  calls (Cell4_run h g0).2 =
    [ok call_local_scope; failed (call_set_srcdata "h") e; ok call_local_scope_exit].
Proof.
  intros Hn. unfold Cell4_run, set_srcdata.
  destruct (Nat.eqb_spec (nrows h) (number_of_src_nodes g0)); done.
Qed.

(** C3, as amended.  The first [forward] never returns a value.  For a
    feature [h] with one row per source node of the graph it raises
    [NameError] for [h_dst], the name read at the concatenation and bound
    nowhere; for any other [h] the library rejects the assignment
    [g.srcdata['h'] = h] before that point. *)
Theorem first_forward_raises (self : Cell4.SAGEConv) (h : tensor) (g0 : DGLGraph) :
  raises (run (Cell4.forward self h) g0).1 ∧
  (nrows h = number_of_src_nodes g0 →
   (run (Cell4.forward self h) g0).1 = Raised (NameError "h_dst")) ∧
  (nrows h ≠ number_of_src_nodes g0 →
   (run (Cell4.forward self h) g0).1
   = Raised (DGLError (feature_length_mismatch (number_of_src_nodes g0) (nrows h)))).
Proof.
  rewrite Cell4_forward_run.
  assert (Hs : nrows h = number_of_src_nodes g0 →
               (Cell4_run h g0).1 = Raised (NameError "h_dst")).
  { intros Hn. by destruct (Cell4_run_shaped h g0 Hn) as (? & -> & _). }
  assert (Hm : nrows h ≠ number_of_src_nodes g0 →
               (Cell4_run h g0).1
               = Raised (DGLError (feature_length_mismatch (number_of_src_nodes g0) (nrows h)))).
  { intros Hn. by destruct (Cell4_run_misshaped h g0 Hn) as [-> _]. }
  split; [|by split].
  destruct (decide (nrows h = number_of_src_nodes g0)) as [Hn|Hn].
  - by rewrite (Hs Hn).
  - by rewrite (Hm Hn).
Qed.

Lemma first_forward_raises_witness :
  nrows h_ex = number_of_src_nodes g_ex ∧
  (run (Cell4.forward (Cell4.__init__ 2 2 W_ex b_ex) h_ex) g_ex).1
  = Raised (NameError "h_dst").
Proof.
  split; [reflexivity|].
  apply (first_forward_raises (Cell4.__init__ 2 2 W_ex b_ex) h_ex g_ex).
  reflexivity.
Defined.

(** C3, as stated, fails: on the graph with the single edge 1 -> 0 and a
    feature that has one row only, the first [forward] raises the library's
    error about the feature's length, not [NameError]. *)
Lemma first_forward_other_error :
  (run (Cell4.forward (Cell4.__init__ 1 1 W_ex b_ex) h_short) g_pair).1
  = Raised (DGLError (feature_length_mismatch 2 1)) ∧
  (run (Cell4.forward (Cell4.__init__ 1 1 W_ex b_ex) h_short) g_pair).1
  ≠ Raised (NameError "h_dst").
Proof. split; [reflexivity | discriminate]. Qed.

(** ** The second [forward] *)

Lemma Cell8_run_calls_shaped mf l h w g0 :
  nrows h = number_of_src_nodes g0 → nrows w = number_of_edges g0 →
  update_all_calls (calls (Cell8_run mf l h w g0).2) = [(mf, mean "m" "h_neigh")].
Proof.
  intros Hh Hw. unfold Cell8_run.
  assert (set_srcdata "h" h g0 = Returned (put_src "h" h g0)) as ->
    by by apply set_srcdata_Returned.
  assert (set_edata "w" w (put_src "h" h g0)
          = Returned (put_edge "w" w (put_src "h" h g0))) as ->.
  { apply set_edata_Returned. split; [|done].
    unfold number_of_edges. by rewrite edges_put_src. }
  destruct (update_all _ _ _) as [g3|e]; [|done].
  destruct (getitem (dstdata g3) "h_neigh"); [|done].
  destruct (Torch.cat _ 1); [|done].
  by destruct (Torch.linear l _).
Qed.

Lemma Cell8_run_calls mf l h w g0 :
  update_all_calls (calls (Cell8_run mf l h w g0).2) = [] ∨
  update_all_calls (calls (Cell8_run mf l h w g0).2) = [(mf, mean "m" "h_neigh")].
Proof.
  unfold Cell8_run.
  destruct (set_srcdata "h" h g0) as [g1|e]; [|by left].
  destruct (set_edata "w" w g1) as [g2|e]; [|by left].
  destruct (update_all _ _ g2) as [g3|e]; [|by right].
  destruct (getitem (dstdata g3) "h_neigh"); [|by right].
  destruct (Torch.cat _ 1); [|by right].
  destruct (Torch.linear l _); by right.
Qed.

Lemma Cell4_run_calls h g0 :
  update_all_calls (calls (Cell4_run h g0).2) = [] ∨
  update_all_calls (calls (Cell4_run h g0).2)
  = [(copy_u "h" "m", mean "m" "h_neigh")].
Proof.
  unfold Cell4_run.
  destruct (set_srcdata "h" h g0) as [g1|e]; [|by left].
  destruct (update_all _ _ g1) as [g2|e]; [|by right].
  destruct (getitem (dstdata g2) "h_neigh"); by right.
Qed.

(** C2.  Each of the two [forward] methods calls [update_all], the one
    propagation entry point, and calls it once: no run records a second call,
    and every run in which the library accepts the feature assignments that
    come first records exactly one.  The first passes [fn.copy_u('h', 'm')]
    and [fn.mean('m', 'h_neigh')], the second [fn.u_mul_e('h', 'w', 'm')] and
    the same reduce function; the message functions differ. *)
Theorem one_update_all_call_each
    (self4 : Cell4.SAGEConv) (self8 : Cell8.SAGEConv) (h w : tensor) (g0 : DGLGraph) :
  let c4 := update_all_calls (calls (run (Cell4.forward self4 h) g0).2) in
  let c8 := update_all_calls (calls (run (Cell8.forward self8 h w) g0).2) in
  (c4 = [] ∨ c4 = [(copy_u "h" "m", mean "m" "h_neigh")]) ∧
  (c8 = [] ∨ c8 = [(u_mul_e "h" "w" "m", mean "m" "h_neigh")]) ∧
  (nrows h = number_of_src_nodes g0 →
   c4 = [(copy_u "h" "m", mean "m" "h_neigh")]) ∧
  (nrows h = number_of_src_nodes g0 → nrows w = number_of_edges g0 →
   c8 = [(u_mul_e "h" "w" "m", mean "m" "h_neigh")]) ∧
  copy_u "h" "m" ≠ u_mul_e "h" "w" "m".
Proof.
  intros c4 c8. subst c4 c8.
  rewrite Cell4_forward_run, Cell8_forward_run.
  split; [apply Cell4_run_calls|].
  split; [apply Cell8_run_calls|].
  split.
  { intros Hn. destruct (Cell4_run_shaped h g0 Hn) as (? & _ & -> & _). done. }
  split; [apply Cell8_run_calls_shaped | done].
Qed.

Lemma one_update_all_call_each_witness :
  nrows h_ex = number_of_src_nodes g_ex ∧ nrows w_ex = number_of_edges g_ex ∧
  update_all_calls
    (calls (run (Cell4.forward (Cell4.__init__ 2 2 W_ex b_ex) h_ex) g_ex).2)
  = [(copy_u "h" "m", mean "m" "h_neigh")] ∧
  update_all_calls
    (calls (run (Cell8.forward (Cell8.__init__ 2 2 W_ex b_ex) h_ex w_ex) g_ex).2)
  = [(u_mul_e "h" "w" "m", mean "m" "h_neigh")].
Proof.
  pose proof (one_update_all_call_each (Cell4.__init__ 2 2 W_ex b_ex)
                (Cell8.__init__ 2 2 W_ex b_ex) h_ex w_ex g_ex) as (_ & _ & H4 & H8 & _).
  split; [reflexivity|]. split; [reflexivity|].
  split; [apply H4; reflexivity | apply H8; reflexivity].
Defined.

(** ** Scoped mutation *)

Lemma Cell4_run_scope h g0 : writes_inside_scope (calls (Cell4_run h g0).2).
Proof.
  unfold Cell4_run, left_scope. exists [].
  destruct (set_srcdata "h" h g0) as [g1|e]; [|by eexists].
  destruct (update_all _ _ g1) as [g2|e]; [|by eexists].
  destruct (getitem (dstdata g2) "h_neigh"); by eexists.
Qed.

Lemma Cell8_run_scope mf l h w g0 :
  writes_inside_scope (calls (Cell8_run mf l h w g0).2).
Proof.
  unfold Cell8_run, left_scope.
  exists [ok call_number_of_dst_nodes; ok call_getitem_slice].
  assert (Forall (λ c : libcall * option exn, writes_features c.1 = false)
            [ok call_number_of_dst_nodes; ok call_getitem_slice])
    by (by repeat constructor).
  destruct (set_srcdata "h" h g0) as [g1|e]; [|by eexists].
  destruct (set_edata "w" w g1) as [g2|e]; [|by eexists].
  destruct (update_all _ _ g2) as [g3|e]; [|by eexists].
  destruct (getitem (dstdata g3) "h_neigh"); [|by eexists].
  destruct (Torch.cat _ 1); [|by eexists].
  destruct (Torch.linear l _); by eexists.
Qed.

(** Inside the scope an assigned feature is there to be read: the writes
    are real, and it is leaving the scope that undoes them. *)
Lemma assignment_visible_inside_scope k t g0 g1 :
  set_srcdata k t g0 = Returned g1 → srcdata g1 !! k = Some t.
Proof.
  intros [_ ->]%set_srcdata_Returned. rewrite srcdata_put_src.
  apply lookup_insert_eq.
Qed.

(** C4.  What the two [forward] methods write to the graph is written inside
    [g.local_scope()]: the assignments to [srcdata] and [edata] and the call
    of [update_all] all lie between entering the scope and leaving it.  So
    the graph, with its node and edge feature data, is after the call what it
    was before, whether [forward] returned or raised. *)
Theorem forward_leaves_graph_unchanged
    (self4 : Cell4.SAGEConv) (self8 : Cell8.SAGEConv) (h w : tensor) (g0 : DGLGraph) :
  g (run (Cell4.forward self4 h) g0).2 = g0 ∧
  g (run (Cell8.forward self8 h w) g0).2 = g0 ∧
  writes_inside_scope (calls (run (Cell4.forward self4 h) g0).2) ∧
  writes_inside_scope (calls (run (Cell8.forward self8 h w) g0).2).
Proof.
  rewrite Cell4_forward_run, Cell8_forward_run.
  split; [apply Cell4_run_graph|].
  split; [apply Cell8_run_graph|].
  split; [apply Cell4_run_scope | apply Cell8_run_scope].
Qed.

(** ** Errors *)





(** ** Mailboxes *)

Lemma filter_ext_elem {A} (P Q : A → Prop) `{!∀ x, Decision (P x)} `{!∀ x, Decision (Q x)}
    (l : list A) :
  (∀ x, x ∈ l → P x ↔ Q x) → filter P l = filter Q l.
Proof.
  induction l as [|x l IH]; intros Hext; [done|].
  rewrite !filter_cons.
  assert (HPQ : P x ↔ Q x) by (apply Hext; left).
  rewrite IH by (intros y Hy; apply Hext; by right).
  destruct (decide (P x)), (decide (Q x)); tauto.
Qed.

Lemma in_edges_from_filter i es v :
  in_edges_from i es v
  = filter (fun k => snd (nth (k - i) es (0, 0)) = v) (seq i (length es)).
Proof.
  revert i. induction es as [|[s d] es IH]; intros i; [done|].
  simpl. rewrite filter_cons, Nat.sub_diag. simpl.
  rewrite IH.
  assert (Hrest : filter (λ k, (nth (k - S i) es (0, 0)).2 = v) (seq (S i) (length es))
                = filter (λ k, (nth (k - i) ((s, d) :: es) (0, 0)).2 = v)
                         (seq (S i) (length es))).
  { apply filter_ext_elem. intros k Hk%elem_of_seq.
    replace (k - i) with (S (k - S i)) by lia. done. }
  rewrite Hrest.
  destruct (Nat.eqb_spec d v), (decide (d = v)); done.
Qed.

Lemma in_edges_arriving g0 v : in_edges g0 v = arriving g0 v.
Proof.
  unfold in_edges, arriving, edge_dst, number_of_edges.
  rewrite in_edges_from_filter. apply filter_ext_elem.
  intros k _. by rewrite Nat.sub_0_r.
Qed.

Lemma elem_of_in_edges g0 v i :
  i ∈ in_edges g0 v ↔ i < number_of_edges g0 ∧ edge_dst g0 i = v.
Proof.
  rewrite in_edges_arriving. unfold arriving.
  rewrite list_elem_of_filter, elem_of_seq. intuition lia.
Qed.

Lemma NoDup_in_edges g0 v : NoDup (in_edges g0 v).
Proof. rewrite in_edges_arriving. apply NoDup_filter, NoDup_seq. Qed.

(** ** The mean *)

Lemma mean_cell_times_degree (s x : Q) (n : nat) :
  (x == s / inject_Z (Z.of_nat (Nat.max 1 n)))%Q →
  (n = 0 → (s == 0)%Q) →
  (inject_Z (Z.of_nat n) * x == s)%Q.
Proof.
  intros Hx H0. destruct n as [|n].
  - rewrite (H0 eq_refl). simpl. ring.
  - rewrite Hx. replace (Nat.max 1 (S n)) with (S n) by lia.
    field. change 0%Q with (inject_Z 0). rewrite inject_Z_injective. lia.
Qed.

Lemma mean_of_mailbox_cell g0 m v j :
  let n := length (arriving g0 v) in
  let total := qsum (map (fun i => cell m i j) (arriving g0 v)) in
  (inject_Z (Z.of_nat n) * cell (mean_of_mailbox g0 m) v j == total)%Q ∧
  (0 < n → (cell (mean_of_mailbox g0 m) v j == total / inject_Z (Z.of_nat n))%Q).
Proof.
  intros n total. subst n total. simpl.
  unfold mailbox, in_degree. rewrite in_edges_arriving.
  split.
  - apply mean_cell_times_degree; [reflexivity|].
    intros H%length_zero_iff_nil. by rewrite H.
  - intros Hn. replace (Nat.max 1 (length (arriving g0 v)))
      with (length (arriving g0 v)) by lia. reflexivity.
Qed.

(** C1.  Whatever the graph and whatever messages 'm' the message function
    has put on its edges, [update_all] with the reduce function
    [fn.mean('m', 'h_neigh')] succeeds and stores a feature 'h_neigh' with
    one row per destination node; at node [v] it is the arithmetic mean of
    the messages on the edges that arrive at [v], that is, of the edges with
    destination [v]: the number of such edges times the stored entry is the
    sum of their messages. *)
Theorem mean_stores_average_of_arriving_messages
    (mf : message_fn) (msgs : gmap string tensor) (m : tensor) (g0 : DGLGraph) :
  messages mf g0 = Returned msgs → msgs !! "m" = Some m →
  ∃ t,
    (g1 ← update_all mf (mean "m" "h_neigh") g0; getitem (dstdata g1) "h_neigh")
    = Returned t ∧
    nrows t = number_of_dst_nodes g0 ∧ ncols t = ncols m ∧
    ∀ v j,
      let n := length (arriving g0 v) in
      let total := qsum (map (fun i => cell m i j) (arriving g0 v)) in
      (inject_Z (Z.of_nat n) * cell t v j == total)%Q ∧
      (0 < n → (cell t v j == total / inject_Z (Z.of_nat n))%Q).
Proof.
  intros Hmsgs Hm. exists (mean_of_mailbox g0 m).
  rewrite (update_all_mean _ _ _ _ _ _ Hmsgs Hm). simpl.
  rewrite dstdata_put_dst, getitem_insert.
  split; [done|]. split; [done|]. split; [done|].
  intros v j. apply mean_of_mailbox_cell.
Qed.

Lemma mean_stores_average_of_arriving_messages_witness :
  let g1 := put_src "h" h_ex g_ex in
  let m := mkTensor (number_of_edges g1) (ncols h_ex)
             (fun i j => cell h_ex (edge_src g1 i) j) in
  messages (copy_u "h" "m") g1 = Returned {[ "m" := m ]} ∧
  ∃ t,
    (g2 ← update_all (copy_u "h" "m") (mean "m" "h_neigh") g1;
     getitem (dstdata g2) "h_neigh") = Returned t ∧
    nrows t = number_of_dst_nodes g1 ∧ ncols t = ncols m ∧
    ∀ v j,
      let n := length (arriving g1 v) in
      let total := qsum (map (fun i => cell m i j) (arriving g1 v)) in
      (inject_Z (Z.of_nat n) * cell t v j == total)%Q ∧
      (0 < n → (cell t v j == total / inject_Z (Z.of_nat n))%Q).
Proof.
  intros g1 m. split; [reflexivity|].
  apply (mean_stores_average_of_arriving_messages
           (copy_u "h" "m") {[ "m" := m ]} m g1); [reflexivity|].
  apply lookup_singleton_eq.
Defined.

(** ** One round covers every edge and every destination node *)

Lemma length_in_edges_from i es v :
  length (in_edges_from i es v) = length (filter (fun e : nat * nat => e.2 = v) es).
Proof.
  revert i. induction es as [|[s d] es IH]; intros i; [done|].
  simpl. rewrite filter_cons. simpl.
  destruct (Nat.eqb_spec d v), (decide (d = v)); simpl; try done; by rewrite IH.
Qed.

Lemma sum_indicator d n :
  sum_list_with (fun v => if decide (d = v) then 1 else 0) (seq 0 n)
  = if decide (d < n) then 1 else 0.
Proof.
  induction n as [|n IH]; [done|].
  rewrite seq_S, sum_list_with_app, IH. simpl.
  repeat case_decide; lia.
Qed.

Lemma sum_list_with_ext {A} (f1 f2 : A → nat) l :
  (∀ x, f1 x = f2 x) → sum_list_with f1 l = sum_list_with f2 l.
Proof. intros H. induction l; simpl; [done|]. by rewrite H, IHl. Qed.

Lemma sum_list_with_plus {A} (f1 f2 : A → nat) l :
  sum_list_with (fun x => f1 x + f2 x) l = sum_list_with f1 l + sum_list_with f2 l.
Proof. induction l; simpl; lia. Qed.

Lemma sum_filter_lengths (es : list (nat * nat)) n :
  Forall (fun e => e.2 < n) es →
  sum_list_with (fun v => length (filter (fun e : nat * nat => e.2 = v) es)) (seq 0 n)
  = length es.
Proof.
  induction 1 as [|[s d] es Hd _ IH]; simpl.
  - induction (seq 0 n); simpl; [done|lia].
  - rewrite <- IH.
    rewrite (sum_list_with_ext _
               (fun v => (if decide (d = v) then 1 else 0)
                         + length (filter (fun e : nat * nat => e.2 = v) es))).
    + rewrite sum_list_with_plus, sum_indicator. simpl in Hd. by case_decide.
    + intros v. rewrite filter_cons. simpl. by case_decide.
Qed.

Lemma sum_in_degrees g0 :
  well_formed g0 →
  sum_list_with (in_degree g0) (seq 0 (number_of_dst_nodes g0)) = number_of_edges g0.
Proof.
  intros Hwf. unfold number_of_edges. rewrite <- (sum_filter_lengths _ (number_of_dst_nodes g0)).
  - apply sum_list_with_ext. intros v. unfold in_degree, in_edges.
    apply length_in_edges_from.
  - eapply Forall_impl; [exact Hwf|]. by intros e [_ ?].
Qed.

Lemma edge_dst_lt g0 i :
  well_formed g0 → i < number_of_edges g0 → edge_dst g0 i < number_of_dst_nodes g0.
Proof.
  intros Hwf Hi. unfold edge_dst.
  unfold well_formed in Hwf. rewrite Forall_forall in Hwf.
  apply Hwf, list_elem_of_In, nth_In. exact Hi.
Qed.

Lemma messages_nrows mf g0 msgs k m :
  messages mf g0 = Returned msgs → msgs !! k = Some m → nrows m = number_of_edges g0.
Proof.
  destruct mf as [u out|lhs rhs out|f]; simpl.
  - unfold copy_u_messages. destruct (getitem (srcdata g0) u); simpl; [|done].
    intros [= <-] [_ <-]%lookup_singleton_Some. done.
  - unfold u_mul_e_messages.
    destruct (getitem (srcdata g0) lhs) as [h|]; simpl; [|done].
    destruct (getitem (edata g0) rhs) as [w|]; simpl; [|done].
    destruct (Torch.broadcast (ncols h) (ncols w)); [|done].
    intros [= <-] [_ <-]%lookup_singleton_Some. done.
  - destruct (f (edge_batch g0)) as [msgs'|]; simpl; [|done].
    unfold check_messages. case_decide as Hall; [|done].
    intros [= <-] Hk. exact (Hall k m Hk).
Qed.

Lemma nth_map_fst (es : list (nat * nat)) i : nth i (map fst es) 0 = (nth i es (0, 0)).1.
Proof. exact (map_nth fst es (0, 0) i). Qed.

Lemma edge_batch_src g0 k t :
  srcdata g0 !! k = Some t →
  ∃ t', src (edge_batch g0) !! k = Some t' ∧
        nrows t' = number_of_edges g0 ∧ ncols t' = ncols t ∧
        ∀ i j, cell t' i j = cell t (edge_src g0 i) j.
Proof.
  intros H. exists (gather (map fst (edges g0)) t). simpl.
  rewrite lookup_fmap, H. simpl. split; [done|].
  split; [by rewrite length_map|]. split; [done|].
  intros i j. unfold edge_src. by rewrite nth_map_fst.
Qed.

(** C8.  One call of [update_all] is one full propagation step.  On a graph
    whose edges join its nodes, once the message function has produced its
    messages: there is one message per edge (a user-defined function is
    handed all the edges at once, each with the feature row of its own source
    node); every edge's message lies in the mailbox of exactly one
    destination node, the edge's own, so the mailboxes together hold as many
    messages as there are edges; and the call stores a reduced row for every
    destination node, the mean over that node's mailbox. *)
Theorem update_all_is_one_full_round
    (mf : message_fn) (msg out : string) (msgs : gmap string tensor) (m : tensor)
    (g0 : DGLGraph) :
  well_formed g0 → messages mf g0 = Returned msgs → msgs !! msg = Some m →
  ∃ g1 t,
    update_all mf (mean msg out) g0 = Returned g1 ∧ dstdata g1 !! out = Some t ∧
    nrows m = number_of_edges g0 ∧
    (∀ k x, srcdata g0 !! k = Some x →
       ∃ x', src (edge_batch g0) !! k = Some x' ∧
             nrows x' = number_of_edges g0 ∧ ncols x' = ncols x ∧
             ∀ i j, cell x' i j = cell x (edge_src g0 i) j) ∧
    (∀ i, i < number_of_edges g0 →
       edge_dst g0 i < number_of_dst_nodes g0 ∧
       ∀ v, i ∈ in_edges g0 v ↔ v = edge_dst g0 i) ∧
    sum_list_with (in_degree g0) (seq 0 (number_of_dst_nodes g0)) = number_of_edges g0 ∧
    nrows t = number_of_dst_nodes g0 ∧
    ∀ v j, (cell t v j
            == qsum (map (fun i => cell m i j) (in_edges g0 v))
               / inject_Z (Z.of_nat (Nat.max 1 (in_degree g0 v))))%Q.
Proof.
  intros Hwf Hmsgs Hm.
  exists (put_dst out (mean_of_mailbox g0 m) g0), (mean_of_mailbox g0 m).
  split; [by apply (update_all_mean _ msgs)|].
  split; [rewrite dstdata_put_dst; apply lookup_insert_eq|].
  split; [by apply (messages_nrows mf g0 msgs msg)|].
  split; [intros k x; apply edge_batch_src|].
  split.
  { intros i Hi. split; [by apply edge_dst_lt|].
    intros v. rewrite elem_of_in_edges. intuition. }
  split; [by apply sum_in_degrees|].
  split; [done|]. intros v j. reflexivity.
Qed.

Lemma update_all_is_one_full_round_witness :
  let g1 := put_src "h" h_ex g_ex in
  let m := mkTensor (number_of_edges g1) (ncols h_ex)
             (fun i j => cell h_ex (edge_src g1 i) j) in
  well_formed g1 ∧
  ∃ g2 t,
    update_all (copy_u "h" "m") (mean "m" "h_neigh") g1 = Returned g2 ∧
    dstdata g2 !! "h_neigh" = Some t ∧
    nrows m = 3 ∧
    sum_list_with (in_degree g1) (seq 0 3) = 3 ∧
    nrows t = 3.
Proof.
  intros g1 m.
  assert (Hwf : well_formed g1).
  { unfold well_formed. repeat constructor; simpl; lia. }
  split; [exact Hwf|].
  destruct (update_all_is_one_full_round (copy_u "h" "m") "m" "h_neigh"
              {[ "m" := m ]} m g1 Hwf eq_refl (lookup_singleton_eq _ _))
    as (g2 & t & H1 & H2 & H3 & _ & _ & H4 & H5 & _).
  exists g2, t. auto.
Defined.

(** ** Messages of the weighted convolution *)

Lemma bidx_lt n i : i < n → Torch.bidx n i = i.
Proof. unfold Torch.bidx. destruct (Nat.eqb_spec n 1); lia. Qed.

Lemma broadcast_refl n : Torch.broadcast n n = Some n.
Proof. unfold Torch.broadcast. by rewrite Nat.eqb_refl. Qed.

Lemma check_messages_singleton n k t :
  nrows t = n → check_messages n {[ k := t ]} = Returned {[ k := t ]}.
Proof.
  intros H. unfold check_messages. case_decide as Hall; [done|].
  destruct Hall. by apply map_Forall_singleton.
Qed.

Section Weighted.
Context (h w : tensor) (g0 g1 g2 : DGLGraph).
Hypothesis Hsrc : set_srcdata "h" h g0 = Returned g1.
Hypothesis Hedge : set_edata "w" w g1 = Returned g2.

Lemma weighted_graph : g2 = put_edge "w" w (put_src "h" h g0).
Proof using Hsrc Hedge.
  apply set_srcdata_Returned in Hsrc as [_ ->].
  by apply set_edata_Returned in Hedge as [_ ->].
Qed.

Lemma weighted_edges : edges g2 = edges g0.
Proof using Hsrc Hedge. rewrite weighted_graph. simpl. apply edges_put_src. Qed.

Lemma weighted_nrows_w : nrows w = number_of_edges g0.
Proof using Hsrc Hedge.
  apply set_srcdata_Returned in Hsrc as [_ ->].
  apply set_edata_Returned in Hedge as [-> _].
  unfold number_of_edges. by rewrite edges_put_src.
Qed.

Lemma weighted_srcdata : srcdata g2 !! "h" = Some h.
Proof using Hsrc Hedge.
  rewrite weighted_graph, srcdata_put_edge, srcdata_put_src. apply lookup_insert_eq.
Qed.

Lemma weighted_edata : edata g2 !! "w" = Some w.
Proof using Hsrc Hedge. rewrite weighted_graph, edata_put_edge. apply lookup_insert_eq. Qed.

Lemma weighted_edge_src i : edge_src g2 i = edge_src g0 i.
Proof using Hsrc Hedge. unfold edge_src. by rewrite weighted_edges. Qed.

Lemma weighted_number_of_edges : number_of_edges g2 = number_of_edges g0.
Proof using Hsrc Hedge. unfold number_of_edges. by rewrite weighted_edges. Qed.

(** The built-in function. *)
Lemma builtin_messages :
  match Torch.broadcast (ncols h) (ncols w) with
  | Some c =>
      ∃ m, messages (u_mul_e "h" "w" "m") g2 = Returned {[ "m" := m ]} ∧
           nrows m = number_of_edges g0 ∧ ncols m = c ∧
           ∀ i j, cell m i j
                  = edge_message (ncols h) (ncols w) (cell h (edge_src g0 i)) (cell w i) j
  | None => messages (u_mul_e "h" "w" "m") g2 = Raised (DGLError not_broadcastable)
  end.
Proof using Hsrc Hedge.
  simpl. unfold u_mul_e_messages, getitem.
  rewrite weighted_srcdata, weighted_edata. simpl.
  destruct (Torch.broadcast (ncols h) (ncols w)) as [c|]; [|done].
  eexists. split; [reflexivity|]. simpl.
  split; [apply weighted_number_of_edges|]. split; [done|].
  intros i j. by rewrite weighted_edge_src.
Qed.

(** The user-defined function. *)
Lemma udf_messages :
  match Torch.broadcast (ncols h) (ncols w) with
  | Some c =>
      ∃ m, messages (udf Cell10.u_mul_e_udf) g2 = Returned {[ "m" := m ]} ∧
           nrows m = number_of_edges g0 ∧ ncols m = c ∧
           ∀ i j, i < number_of_edges g0 →
                  cell m i j
                  = edge_message (ncols h) (ncols w) (cell h (edge_src g0 i)) (cell w i) j
  | None => messages (udf Cell10.u_mul_e_udf) g2 = Raised (RuntimeError size_mismatch)
  end.
Proof using Hsrc Hedge.
  simpl. unfold Cell10.u_mul_e_udf, getitem. simpl.
  rewrite lookup_fmap, weighted_srcdata, weighted_edata. simpl.
  unfold Torch.mul. simpl.
  rewrite length_map, weighted_nrows_w.
  fold (number_of_edges g2). rewrite weighted_number_of_edges, broadcast_refl.
  destruct (Torch.broadcast (ncols h) (ncols w)) as [c|]; [|done].
  simpl. rewrite check_messages_singleton by done.
  eexists. split; [reflexivity|]. simpl.
  split; [done|]. split; [done|].
  intros i j Hi. by rewrite (bidx_lt _ _ Hi), nth_map_fst, weighted_edges.
Qed.

End Weighted.

(** ** The outcome of the second [forward] *)

#[local] Arguments Torch.cat : simpl never.
#[local] Arguments Torch.linear : simpl never.
#[local] Arguments Torch.cat_cols : simpl never.

Lemma cat_pair a b : Torch.cat [a; b] 1 = Torch.cat_cols a b.
Proof. unfold Torch.cat. cbn. by destruct (Torch.cat_cols a b). Qed.

(** After the two assignments, the rest of the run is the propagation, the
    concatenation, the projection and the rectifier, in that order. *)
Lemma Cell8_run_outcome mf l h w g0 :
  nrows h = number_of_src_nodes g0 → nrows w = number_of_edges g0 →
  (Cell8_run mf l h w g0).1
  = (g3 ← update_all mf (mean "m" "h_neigh") (put_edge "w" w (put_src "h" h g0));
     h_neigh ← getitem (dstdata g3) "h_neigh";
     h_total ← Torch.cat [Torch.slice_to h (number_of_dst_nodes g0); h_neigh] 1;
     y ← Torch.linear l h_total;
     mret (Some (Torch.relu y))).
Proof.
  intros Hh Hw. unfold Cell8_run.
  assert (set_srcdata "h" h g0 = Returned (put_src "h" h g0)) as ->
    by by apply set_srcdata_Returned.
  assert (set_edata "w" w (put_src "h" h g0)
          = Returned (put_edge "w" w (put_src "h" h g0))) as ->.
  { apply set_edata_Returned. split; [|done].
    unfold number_of_edges. by rewrite edges_put_src. }
  destruct (update_all _ _ _) as [g3|e]; simpl; [|done].
  destruct (getitem (dstdata g3) "h_neigh"); simpl; [|done].
  destruct (Torch.cat _ 1); simpl; [|done].
  by destruct (Torch.linear l _).
Qed.

Lemma Cell8_run_outcome_messages mf l h w g0 m :
  nrows h = number_of_src_nodes g0 → nrows w = number_of_edges g0 →
  messages mf (put_edge "w" w (put_src "h" h g0)) = Returned {[ "m" := m ]} →
  (Cell8_run mf l h w g0).1
  = (h_total ← Torch.cat_cols (Torch.slice_to h (number_of_dst_nodes g0))
                 (mean_of_mailbox (put_edge "w" w (put_src "h" h g0)) m);
     y ← Torch.linear l h_total;
     mret (Some (Torch.relu y))).
Proof.
  intros Hh Hw Hm. rewrite Cell8_run_outcome by done.
  rewrite (update_all_mean _ _ _ _ _ _ Hm (lookup_singleton_eq _ _)). simpl.
  rewrite dstdata_put_dst, getitem_insert. simpl. by rewrite cat_pair.
Qed.

Lemma Cell8_run_outcome_no_messages mf l h w g0 e :
  nrows h = number_of_src_nodes g0 → nrows w = number_of_edges g0 →
  messages mf (put_edge "w" w (put_src "h" h g0)) = Raised e →
  (Cell8_run mf l h w g0).1 = Raised e.
Proof.
  intros Hh Hw Hm. rewrite Cell8_run_outcome by done.
  unfold update_all. by rewrite Hm.
Qed.

Lemma Cell8_run_misshaped mf l h w g0 :
  nrows h ≠ number_of_src_nodes g0 ∨ nrows w ≠ number_of_edges g0 →
  raises (Cell8_run mf l h w g0).1.
Proof.
  intros H. unfold Cell8_run, set_srcdata.
  destruct (Nat.eqb_spec (nrows h) (number_of_src_nodes g0)) as [Hh|]; [|done].
  unfold set_edata, number_of_edges. rewrite edges_put_src.
  destruct (Nat.eqb_spec (nrows w) (length (edges g0))) as [Hw|]; [|done].
  by destruct H.
Qed.

(** ** Tensors with the same entries *)

Lemma same_tensor_mean g0 m m' :
  nrows m = number_of_edges g0 → same_tensor m m' →
  same_tensor (mean_of_mailbox g0 m) (mean_of_mailbox g0 m').
Proof.
  intros Hn (Hr & Hc & Hcell). split; [done|]. split; [done|].
  intros v j _ Hj. simpl in *. unfold mailbox.
  f_equal. f_equal. apply map_ext_in. intros i Hi.
  apply list_elem_of_In, elem_of_in_edges in Hi as [Hi _].
  apply Hcell; [lia | done].
Qed.

Lemma same_outcome_cat_cols a b b' :
  same_tensor b b' → same_outcome (Torch.cat_cols a b) (Torch.cat_cols a b').
Proof.
  intros (Hr & Hc & Hcell). unfold Torch.cat_cols. rewrite <- Hr.
  destruct (Nat.eqb_spec (nrows a) (nrows b)) as [Hab|]; [|done].
  split; [done|]. split; [simpl; lia|].
  intros i j Hi Hj. simpl in *.
  destruct (Nat.ltb_spec j (ncols a)); [done|].
  apply Hcell; lia.
Qed.

Lemma same_outcome_linear l x x' :
  same_tensor x x' → same_outcome (Torch.linear l x) (Torch.linear l x').
Proof.
  intros (Hr & Hc & Hcell). unfold Torch.linear. rewrite <- Hc.
  destruct (Nat.eqb_spec (ncols x) (Torch.in_features l)) as [Hin|]; [|done].
  split; [done|]. split; [done|].
  intros i k Hi _. simpl in *. f_equal. unfold dot. f_equal.
  apply map_ext_in. intros j Hj%list_elem_of_In%elem_of_seq.
  f_equal. apply Hcell; lia.
Qed.

Lemma same_tensor_relu y y' : same_tensor y y' → same_tensor (Torch.relu y) (Torch.relu y').
Proof.
  intros (Hr & Hc & Hcell). split; [done|]. split; [done|].
  intros i j Hi Hj. simpl in *. f_equal. by apply Hcell.
Qed.

Lemma same_result_tail l (o o' : outcome tensor) :
  same_outcome o o' →
  same_result (h_total ← o; y ← Torch.linear l h_total; mret (Some (Torch.relu y)))
              (h_total ← o'; y ← Torch.linear l h_total; mret (Some (Torch.relu y))).
Proof.
  destruct o as [x|], o' as [x'|]; simpl; try done.
  intros Hx%(same_outcome_linear l).
  destruct (Torch.linear l x) as [y|], (Torch.linear l x') as [y'|]; simpl; try done.
  by apply same_tensor_relu.
Qed.

(** ** Shape and sign of the result *)

Lemma broadcast_width a b :
  b = a ∨ b = 1 → Torch.broadcast a b = Some a.
Proof.
  unfold Torch.broadcast. intros [-> | ->]; [by rewrite Nat.eqb_refl|].
  destruct (Nat.eqb_spec a 1); [by subst|]. done.
Qed.

Lemma cat_cols_Returned a b :
  nrows a = nrows b →
  ∃ x, Torch.cat_cols a b = Returned x ∧
       nrows x = nrows a ∧ ncols x = ncols a + ncols b.
Proof.
  intros H. unfold Torch.cat_cols. rewrite H, Nat.eqb_refl.
  eexists. split; [reflexivity|]. done.
Qed.

Lemma linear_Returned l x :
  ncols x = Torch.in_features l →
  ∃ y, Torch.linear l x = Returned y ∧
       nrows y = nrows x ∧ ncols y = Torch.out_features l.
Proof.
  intros H. unfold Torch.linear. rewrite H, Nat.eqb_refl.
  eexists. split; [reflexivity|]. done.
Qed.

Lemma relu_nonnegative y i j : (0 <= cell (Torch.relu y) i j)%Q.
Proof. simpl. apply Q.le_max_l. Qed.

(** C9, as stated, fails: a feature that covers the [n] destination nodes
    need not cover the source nodes.  The graph has two source nodes, one
    destination node and the edge 1 -> 0; [h] has one row, of width 1, and
    [w] one row of width 1.  The library rejects [g.srcdata['h'] = h] (there
    is no row for the source of the edge) and [forward] returns nothing. *)
Lemma second_forward_short_feature :
  number_of_dst_nodes g_block ≤ nrows h_short ∧ ncols h_short = 1 ∧
  nrows w_one = number_of_edges g_block ∧ ncols w_one = 1 ∧
  (run (Cell8.forward (Cell8.__init__ 1 1 W_ex b_ex) h_short w_one) g_block).1
  = Raised (DGLError (feature_length_mismatch 2 1)).
Proof.
  split; [vm_compute; lia|]. split; [reflexivity|]. split; [reflexivity|].
  split; reflexivity.
Qed.

(** ** Sample runs *)

(** The second [forward] on the sample graph: node 1 averages the weighted
    features of nodes 0 and 2, node 0 takes that of node 1, node 2 receives
    nothing. *)
Example second_forward_sample :
  match (run (Cell8.forward (Cell8.__init__ 2 2 W_ex b_ex) h_ex w_ex) g_ex).1 with
  | Returned (Some t) => to_lists t = [[24; 0]; [41 # 2; 0]; [12; 0]]%Q
  | _ => False
  end.
Proof. vm_compute. reflexivity. Qed.

Example second_forward_udf_sample :
  match (run (Cell8.forward_udf (Cell8.__init__ 2 2 W_ex b_ex) h_ex w_ex) g_ex).1 with
  | Returned (Some t) => to_lists t = [[24; 0]; [41 # 2; 0]; [12; 0]]%Q
  | _ => False
  end.
Proof. vm_compute. reflexivity. Qed.

Example first_forward_sample_calls :
  calls (run (Cell4.forward (Cell4.__init__ 2 2 W_ex b_ex) h_ex) g_ex).2
  = [ok call_local_scope; ok (call_set_srcdata "h");
     ok (call_update_all (copy_u "h" "m") (mean "m" "h_neigh"));
     ok (call_get_dstdata "h_neigh"); ok call_local_scope_exit].
Proof. reflexivity. Qed.

(** The feature 'h_neigh' that the propagation of the first [forward] stores
    on the sample graph. *)
Example copy_u_mean_sample :
  match update_all (copy_u "h" "m") (mean "m" "h_neigh") (put_src "h" h_ex g_ex) with
  | Returned g1 =>
      to_lists <$> (dstdata g1 !! "h_neigh")
      = Some [[3; 4]; [3; 9 # 2]; [0; 0]]%Q
  | Raised _ => False
  end.
Proof. vm_compute. reflexivity. Qed.

(** * Further properties *)

(** ** The second [forward], case by case *)

#[local] Arguments Torch.slice_to : simpl never.
#[local] Arguments mean_of_mailbox : simpl never.

Lemma assignments_accepted h w g0 :
  nrows h = number_of_src_nodes g0 → nrows w = number_of_edges g0 →
  set_srcdata "h" h g0 = Returned (put_src "h" h g0) ∧
  set_edata "w" w (put_src "h" h g0)
  = Returned (put_edge "w" w (put_src "h" h g0)).
Proof.
  intros Hh Hw. split; [by apply set_srcdata_Returned|].
  apply set_edata_Returned. split; [|done].
  unfold number_of_edges. by rewrite edges_put_src.
Qed.

Lemma Cell8_run_bad_h mf l h w g0 :
  nrows h ≠ number_of_src_nodes g0 →
  (Cell8_run mf l h w g0).1
  = Raised (DGLError (feature_length_mismatch (number_of_src_nodes g0) (nrows h))).
Proof.
  intros Hh. unfold Cell8_run, set_srcdata.
  by destruct (Nat.eqb_spec (nrows h) (number_of_src_nodes g0)).
Qed.

Lemma Cell8_run_bad_w mf l h w g0 :
  nrows h = number_of_src_nodes g0 → nrows w ≠ number_of_edges g0 →
  (Cell8_run mf l h w g0).1
  = Raised (DGLError (feature_length_mismatch (number_of_edges g0) (nrows w))).
Proof.
  intros Hh Hw. unfold Cell8_run.
  assert (set_srcdata "h" h g0 = Returned (put_src "h" h g0)) as ->
    by by apply set_srcdata_Returned.
  unfold set_edata, number_of_edges. rewrite edges_put_src.
  by destruct (Nat.eqb_spec (nrows w) (length (edges g0))).
Qed.

Lemma number_of_dst_nodes_prepared h w g0 :
  number_of_dst_nodes (put_edge "w" w (put_src "h" h g0)) = number_of_dst_nodes g0.
Proof. by rewrite number_of_dst_nodes_put_edge, number_of_dst_nodes_put_src. Qed.

(** The end of the run: concatenation, projection, rectifier. *)
Lemma tail_cases l (a b : tensor) :
  let tail := (h_total ← Torch.cat_cols a b; y ← Torch.linear l h_total;
               mret (Some (Torch.relu y))) in
  (nrows a = nrows b ∧ ncols a + ncols b = Torch.in_features l ∧
   ∃ x y, Torch.cat_cols a b = Returned x ∧ Torch.linear l x = Returned y ∧
          tail = Returned (Some (Torch.relu y))) ∨
  ((nrows a ≠ nrows b ∨ ncols a + ncols b ≠ Torch.in_features l) ∧
   tail = Raised (RuntimeError size_mismatch)).
Proof.
  intros tail. subst tail.
  destruct (decide (nrows a = nrows b)) as [Hr|Hr].
  2: { right. split; [by left|]. unfold Torch.cat_cols.
       by destruct (Nat.eqb_spec (nrows a) (nrows b)). }
  destruct (cat_cols_Returned a b Hr) as (x & Hx & _ & Hxc). rewrite Hx.
  simpl.
  destruct (decide (ncols a + ncols b = Torch.in_features l)) as [Hc|Hc].
  - left. destruct (linear_Returned l x) as (y & Hy & _); [congruence|].
    split; [done|]. split; [done|]. exists x, y. by rewrite Hy.
  - right. split; [by right|]. unfold Torch.linear. rewrite Hxc.
    by destruct (Nat.eqb_spec (ncols a + ncols b) (Torch.in_features l)).
Qed.

Lemma tail_Returned l (a b : tensor) t :
  (h_total ← Torch.cat_cols a b; y ← Torch.linear l h_total;
   mret (Some (Torch.relu y))) = Returned t →
  nrows a = nrows b ∧ ncols a + ncols b = Torch.in_features l ∧
  ∃ x y, Torch.cat_cols a b = Returned x ∧ Torch.linear l x = Returned y ∧
         t = Some (Torch.relu y).
Proof.
  destruct (tail_cases l a b) as [(Hr & Hc & x & y & Hx & Hy & ->)|[_ ->]]; [|done].
  intros [= <-]. split; [done|]. split; [done|]. by exists x, y.
Qed.

Lemma tail_Raised l (a b : tensor) e :
  (h_total ← Torch.cat_cols a b; y ← Torch.linear l h_total;
   mret (Some (Torch.relu y))) = Raised e →
  e = RuntimeError size_mismatch.
Proof.
  destruct (tail_cases l a b) as [(_ & _ & x & y & _ & _ & ->)|[_ ->]]; congruence.
Qed.

(** With the built-in message function, and shapes that the assignments
    accept, the run is decided by the two widths. *)
Lemma Cell8_run_builtin l h w g0 :
  nrows h = number_of_src_nodes g0 → nrows w = number_of_edges g0 →
  match Torch.broadcast (ncols h) (ncols w) with
  | Some c =>
      ∃ m, nrows m = number_of_edges g0 ∧ ncols m = c ∧
           (∀ i j, cell m i j
                   = edge_message (ncols h) (ncols w) (cell h (edge_src g0 i)) (cell w i) j) ∧
           weighted_h_neigh (u_mul_e "h" "w" "m") h w g0
           = Returned (mean_of_mailbox (put_edge "w" w (put_src "h" h g0)) m) ∧
           (Cell8_run (u_mul_e "h" "w" "m") l h w g0).1
           = (h_total ← Torch.cat_cols (Torch.slice_to h (number_of_dst_nodes g0))
                          (mean_of_mailbox (put_edge "w" w (put_src "h" h g0)) m);
              y ← Torch.linear l h_total;
              mret (Some (Torch.relu y)))
  | None =>
      (Cell8_run (u_mul_e "h" "w" "m") l h w g0).1 = Raised (DGLError not_broadcastable)
  end.
Proof.
  intros Hh Hw. destruct (assignments_accepted h w g0 Hh Hw) as [H1 H2].
  pose proof (builtin_messages h w g0 _ _ H1 H2) as Hb.
  destruct (Torch.broadcast (ncols h) (ncols w)) as [c|].
  - destruct Hb as (m & Hm & Hr & Hc & Hcell). exists m.
    split; [done|]. split; [done|]. split; [done|]. split.
    + unfold weighted_h_neigh.
      rewrite (update_all_mean _ _ _ _ _ _ Hm (lookup_singleton_eq _ _)). simpl.
      by rewrite dstdata_put_dst, getitem_insert.
    + by apply Cell8_run_outcome_messages.
  - by apply Cell8_run_outcome_no_messages.
Qed.

Lemma Cell8_run_udf l h w g0 :
  nrows h = number_of_src_nodes g0 → nrows w = number_of_edges g0 →
  match Torch.broadcast (ncols h) (ncols w) with
  | Some c =>
      ∃ m, (Cell8_run (udf Cell10.u_mul_e_udf) l h w g0).1
           = (h_total ← Torch.cat_cols (Torch.slice_to h (number_of_dst_nodes g0))
                          (mean_of_mailbox (put_edge "w" w (put_src "h" h g0)) m);
              y ← Torch.linear l h_total;
              mret (Some (Torch.relu y)))
  | None =>
      (Cell8_run (udf Cell10.u_mul_e_udf) l h w g0).1
      = Raised (RuntimeError size_mismatch)
  end.
Proof.
  intros Hh Hw. destruct (assignments_accepted h w g0 Hh Hw) as [H1 H2].
  pose proof (udf_messages h w g0 _ _ H1 H2) as Hu.
  destruct (Torch.broadcast (ncols h) (ncols w)) as [c|].
  - destruct Hu as (m & Hm & _). exists m. by apply Cell8_run_outcome_messages.
  - by apply Cell8_run_outcome_no_messages.
Qed.

Lemma Cell8_run_returns_iff l h w g0 :
  ((∃ t, (Cell8_run (u_mul_e "h" "w" "m") l h w g0).1 = Returned (Some t)) ↔
   shapes_fit l h w g0) ∧
  (Cell8_run (u_mul_e "h" "w" "m") l h w g0).1 ≠ Returned None.
Proof.
  destruct (decide (nrows h = number_of_src_nodes g0)) as [Hh|Hh].
  2: { rewrite (Cell8_run_bad_h _ l h w g0 Hh). split; [|done].
       split; [by intros [? ?] | by intros [? _]]. }
  destruct (decide (nrows w = number_of_edges g0)) as [Hw|Hw].
  2: { rewrite (Cell8_run_bad_w _ l h w g0 Hh Hw). split; [|done].
       split; [by intros [? ?] | by intros (_ & ? & _)]. }
  pose proof (Cell8_run_builtin l h w g0 Hh Hw) as Hrun.
  unfold shapes_fit.
  destruct (Torch.broadcast (ncols h) (ncols w)) as [c|].
  2: { rewrite Hrun. split; [|done].
       split; [by intros [? ?] | by intros (_ & _ & _ & ? & ? & _)]. }
  destruct Hrun as (m & Hmr & Hmc & _ & _ & ->).
  set (a := Torch.slice_to h (number_of_dst_nodes g0)).
  set (b := mean_of_mailbox (put_edge "w" w (put_src "h" h g0)) m).
  assert (Ha : nrows a = Nat.min (number_of_dst_nodes g0) (nrows h)) by done.
  assert (Hb : nrows b = number_of_dst_nodes g0)
    by apply number_of_dst_nodes_prepared.
  assert (Hac : ncols a = ncols h) by done.
  assert (Hbc : ncols b = c) by done.
  split.
  - split.
    + intros [t (Hr & Hc & _)%tail_Returned].
      split; [done|]. split; [done|]. split; [lia|].
      exists c. split; [done | congruence].
    + intros (_ & _ & Hn & c' & [= <-] & Hc).
      assert (Hr : nrows a = nrows b) by lia.
      assert (Hc' : ncols a + ncols b = Torch.in_features l) by congruence.
      destruct (cat_cols_Returned a b Hr) as (x & Hx & _ & Hxc).
      destruct (linear_Returned l x) as (y & Hy & _); [congruence|].
      exists (Torch.relu y).
      destruct (tail_cases l a b) as [(_ & _ & x' & y' & Hx' & Hy' & ->)|[[?|?] _]];
        [|done|done].
      congruence.
  - intros (_ & _ & x & y & _ & _ & [=])%tail_Returned.
Qed.


(** X1.  For a feature [h] and weights [w] with at least one column each
    (two-dimensional tensors of the module's floating dtype, as every
    [tensor] is), the second [forward] returns a tensor exactly when the
    shapes fit: [h] has one row per source node and these cover the
    destination nodes, [w] has one row per edge, the widths of [h] and [w]
    go together and the linear layer takes the width of the concatenation.
    It never returns [None]. *)
Theorem second_forward_returns_iff_shapes_fit
    (self : Cell8.SAGEConv) (h w : tensor) (g0 : DGLGraph) :
  0 < ncols h → 0 < ncols w →
  ((∃ t, (run (Cell8.forward self h w) g0).1 = Returned (Some t)) ↔
   shapes_fit (Cell8.linear self) h w g0) ∧
  (run (Cell8.forward self h w) g0).1 ≠ Returned None.
Proof. intros _ _. rewrite Cell8_forward_run. apply Cell8_run_returns_iff. Qed.

Lemma second_forward_returns_iff_shapes_fit_witness :
  0 < ncols h_ex ∧ 0 < ncols w_ex ∧
  shapes_fit (Cell8.linear (Cell8.__init__ 2 2 W_ex b_ex)) h_ex w_ex g_ex ∧
  ∃ t, (run (Cell8.forward (Cell8.__init__ 2 2 W_ex b_ex) h_ex w_ex) g_ex).1
       = Returned (Some t).
Proof.
  assert (Hh : 0 < ncols h_ex) by (vm_compute; lia).
  assert (Hw : 0 < ncols w_ex) by (vm_compute; lia).
  assert (Hs : shapes_fit (Cell8.linear (Cell8.__init__ 2 2 W_ex b_ex)) h_ex w_ex g_ex).
  { split; [reflexivity|]. split; [reflexivity|]. split; [vm_compute; lia|].
    exists 2. split; reflexivity. }
  split; [exact Hh|]. split; [exact Hw|]. split; [exact Hs|].
  exact (proj2 (proj1 (second_forward_returns_iff_shapes_fit
                         (Cell8.__init__ 2 2 W_ex b_ex) h_ex w_ex g_ex Hh Hw)) Hs).
Defined.



(** ** The first [forward] stops short of the tensor library *)

(** X3.  The first [forward] never gets to use what [__init__] made: its
    outcome and the calls it records are the same for every module, and no
    run records a call of [torch.cat], of the linear layer or of [F.relu].
    When [h] has one row per source node, the propagation itself has run to
    the end before the unbound name stops the method: [update_all] and the
    reading of 'h_neigh' are recorded as successful. *)
Theorem first_forward_ignores_its_module
    (self self' : Cell4.SAGEConv) (h : tensor) (g0 : DGLGraph) :
  run (Cell4.forward self h) g0 = run (Cell4.forward self' h) g0 ∧
  Forall (fun c => tensor_call c.1 = false) (calls (run (Cell4.forward self h) g0).2) ∧
  (nrows h = number_of_src_nodes g0 →
   ok (call_update_all (copy_u "h" "m") (mean "m" "h_neigh"))
     ∈ calls (run (Cell4.forward self h) g0).2 ∧
   ok (call_get_dstdata "h_neigh") ∈ calls (run (Cell4.forward self h) g0).2).
Proof.
  rewrite !Cell4_forward_run. split; [done|]. split.
  - unfold Cell4_run, left_scope.
    destruct (set_srcdata "h" h g0) as [g1|e]; simpl; [|by repeat constructor].
    destruct (update_all _ _ g1) as [g2|e]; simpl; [|by repeat constructor].
    destruct (getitem (dstdata g2) "h_neigh"); simpl; by repeat constructor.
  - intros Hn. destruct (Cell4_run_shaped h g0 Hn) as (? & _ & -> & _).
    split; repeat first [apply list_elem_of_here | apply list_elem_of_further].
Qed.

Lemma first_forward_ignores_its_module_witness :
  nrows h_ex = number_of_src_nodes g_ex ∧
  ok (call_update_all (copy_u "h" "m") (mean "m" "h_neigh"))
    ∈ calls (run (Cell4.forward (Cell4.__init__ 2 2 W_ex b_ex) h_ex) g_ex).2.
Proof.
  split; [reflexivity|].
  apply (first_forward_ignores_its_module (Cell4.__init__ 2 2 W_ex b_ex)
           (Cell4.__init__ 2 2 W_ex b_ex) h_ex g_ex).
  reflexivity.
Defined.

(** ** The aggregated feature and the entries of the result *)











(** ** The two convolutions against each other *)






(** ** Features already on the graph *)

Lemma same_tensor_mean_structure ga gb m m' :
  number_of_dst_nodes ga = number_of_dst_nodes gb → edges ga = edges gb →
  nrows m = number_of_edges ga → same_tensor m m' →
  same_tensor (mean_of_mailbox ga m) (mean_of_mailbox gb m').
Proof.
  intros Hd He Hn (Hr & Hc & Hcell). unfold mean_of_mailbox.
  split; [done|]. split; [done|].
  intros v j _ Hj. simpl in *. unfold mailbox, in_degree.
  assert (Hin : in_edges gb v = in_edges ga v) by (unfold in_edges; by rewrite He).
  rewrite Hin. f_equal. f_equal. apply map_ext_in. intros i Hi.
  apply list_elem_of_In, elem_of_in_edges in Hi as [Hi _].
  apply Hcell; [lia | done].
Qed.

(** X8.  The second [forward] looks at the structure of the graph and at
    its arguments only.  On two graphs with the same nodes and edges it ends
    the same way, with the same tensor or without one, whatever features the
    graphs carried before: fields called 'h', 'w' or 'h_neigh' that are
    already there are not read. *)
Theorem second_forward_ignores_features_on_the_graph
    (self : Cell8.SAGEConv) (h w : tensor) (ga gb : DGLGraph) :
  same_structure ga gb →
  same_result (run (Cell8.forward self h w) ga).1 (run (Cell8.forward self h w) gb).1.
Proof.
  intros (Hs & Hd & He). rewrite !Cell8_forward_run. set (l := Cell8.linear self).
  assert (Hne : number_of_edges ga = number_of_edges gb)
    by (unfold number_of_edges; by rewrite He).
  destruct (decide (nrows h = number_of_src_nodes ga)) as [Hh|Hh].
  2: { rewrite (Cell8_run_bad_h _ l h w ga Hh).
       rewrite Hs in Hh. by rewrite (Cell8_run_bad_h _ l h w gb Hh). }
  destruct (decide (nrows w = number_of_edges ga)) as [Hw|Hw].
  2: { rewrite (Cell8_run_bad_w _ l h w ga Hh Hw).
       rewrite Hs in Hh. rewrite Hne in Hw.
       by rewrite (Cell8_run_bad_w _ l h w gb Hh Hw). }
  pose proof (Cell8_run_builtin l h w ga Hh Hw) as Ha.
  assert (Hh' : nrows h = number_of_src_nodes gb) by congruence.
  assert (Hw' : nrows w = number_of_edges gb) by congruence.
  pose proof (Cell8_run_builtin l h w gb Hh' Hw') as Hb.
  destruct (Torch.broadcast (ncols h) (ncols w)) as [c|].
  2: { by rewrite Ha, Hb. }
  destruct Ha as (ma & Har & Hac & Hacell & _ & ->).
  destruct Hb as (mb & Hbr & Hbc & Hbcell & _ & ->).
  rewrite Hd.
  apply same_result_tail, same_outcome_cat_cols, same_tensor_mean_structure.
  - by rewrite !number_of_dst_nodes_prepared.
  - simpl. by rewrite !edges_put_src.
  - rewrite Har. unfold number_of_edges. simpl. by rewrite edges_put_src.
  - split; [congruence|]. split; [congruence|].
    intros i j _ _. rewrite Hacell, Hbcell. unfold edge_src. by rewrite He.
Qed.

Lemma second_forward_ignores_features_on_the_graph_witness :
  same_structure g_ex g_ex_loaded ∧
  same_result
    (run (Cell8.forward (Cell8.__init__ 2 2 W_ex b_ex) h_ex w_ex) g_ex).1
    (run (Cell8.forward (Cell8.__init__ 2 2 W_ex b_ex) h_ex w_ex) g_ex_loaded).1.
Proof.
  assert (Hs : same_structure g_ex g_ex_loaded).
  { split; [reflexivity|]. split; reflexivity. }
  split; [exact Hs|].
  exact (second_forward_ignores_features_on_the_graph
           (Cell8.__init__ 2 2 W_ex b_ex) h_ex w_ex g_ex g_ex_loaded Hs).
Defined.

(** ** The widths a module accepts *)

Lemma broadcast_into_doubled (a b f : nat) :
  (∃ c, Torch.broadcast a b = Some c ∧ a + c = f * 2) ↔
  (a = f ∧ (b = f ∨ b = 1)) ∨ (a = 1 ∧ b + 1 = f * 2).
Proof.
  unfold Torch.broadcast.
  destruct (Nat.eqb_spec a b) as [Hab|Hab];
    [|destruct (Nat.eqb_spec a 1) as [Ha|Ha];
      [|destruct (Nat.eqb_spec b 1) as [Hb|Hb]]].
  - split; [intros (c & [= <-] & Hc); lia|].
    intros H. exists a. split; [done | lia].
  - split; [intros (c & [= <-] & Hc); lia|].
    intros H. exists b. split; [done | lia].
  - split; [intros (c & [= <-] & Hc); lia|].
    intros H. exists a. split; [done | lia].
  - split; [by intros (c & ? & _) | lia].
Qed.

(** X9.  Which inputs a module made by [__init__(in_feat, out_feat)]
    accepts, among features [h] and weights [w] with at least one column
    each (two-dimensional tensors of the module's floating dtype, as every
    [tensor] is).  The second [forward] returns exactly when [h] has one row
    per source node, covering the destination nodes, [w] has one row per
    edge, and the widths are one of these: [h] of width [in_feat] with [w]
    of width [in_feat] or 1; or [h] of width 1 with [w] of width
    [2 * in_feat - 1], where the product widens the single column of [h] and
    the concatenation happens to have the width [in_feat * 2] that the
    linear layer takes. *)
Theorem init_fixes_the_accepted_widths
    (in_feat out_feat : nat) (W : nat → nat → Q) (b : nat → Q)
    (h w : tensor) (g0 : DGLGraph) :
  0 < ncols h → 0 < ncols w →
  ((∃ t, (run (Cell8.forward (Cell8.__init__ in_feat out_feat W b) h w) g0).1
         = Returned (Some t)) ↔
   nrows h = number_of_src_nodes g0 ∧ nrows w = number_of_edges g0 ∧
   number_of_dst_nodes g0 ≤ nrows h ∧
   ((ncols h = in_feat ∧ (ncols w = in_feat ∨ ncols w = 1)) ∨
    (ncols h = 1 ∧ ncols w + 1 = in_feat * 2))).
Proof.
  intros _ _. rewrite Cell8_forward_run.
  rewrite (proj1 (Cell8_run_returns_iff _ h w g0)). unfold shapes_fit. simpl.
  by rewrite broadcast_into_doubled.
Qed.

(** A module for features of width 2, a feature of width 1 and weights of
    width 3. *)
Lemma init_fixes_the_accepted_widths_witness :
  let h1 := of_lists 1 [[1]; [2]; [3]]%Q in
  let w3 := of_lists 3 [[1; 1; 1]; [1; 2; 3]; [0; 0; 1]]%Q in
  0 < ncols h1 ∧ 0 < ncols w3 ∧
  (nrows h1 = number_of_src_nodes g_ex ∧ nrows w3 = number_of_edges g_ex ∧
   number_of_dst_nodes g_ex ≤ nrows h1 ∧
   ((ncols h1 = 2 ∧ (ncols w3 = 2 ∨ ncols w3 = 1)) ∨
    (ncols h1 = 1 ∧ ncols w3 + 1 = 2 * 2))) ∧
  ∃ t, (run (Cell8.forward (Cell8.__init__ 2 2 W_ex b_ex) h1 w3) g_ex).1
       = Returned (Some t).
Proof.
  intros h1 w3.
  assert (Hh : 0 < ncols h1) by (vm_compute; lia).
  assert (Hw : 0 < ncols w3) by (vm_compute; lia).
  assert (Hs : nrows h1 = number_of_src_nodes g_ex ∧ nrows w3 = number_of_edges g_ex ∧
               number_of_dst_nodes g_ex ≤ nrows h1 ∧
               ((ncols h1 = 2 ∧ (ncols w3 = 2 ∨ ncols w3 = 1)) ∨
                (ncols h1 = 1 ∧ ncols w3 + 1 = 2 * 2))).
  { split; [reflexivity|]. split; [reflexivity|]. split; [vm_compute; lia|].
    right. split; reflexivity. }
  split; [exact Hh|]. split; [exact Hw|]. split; [exact Hs|].
  exact (proj2 (init_fixes_the_accepted_widths 2 2 W_ex b_ex h1 w3 g_ex Hh Hw) Hs).
Defined.

Example narrow_feature_sample :
  match (run (Cell8.forward (Cell8.__init__ 2 2 W_ex b_ex)
                (of_lists 1 [[1]; [2]; [3]]%Q)
                (of_lists 3 [[1; 1; 1]; [1; 2; 3]; [0; 0; 1]]%Q)) g_ex).1 with
  | Returned (Some t) => to_lists t = [[3; 0]; [25 # 2; 0]; [3; 0]]%Q
  | _ => False
  end.
Proof. vm_compute. reflexivity. Qed.

(** * The user-defined message function and the built-in one *)

Lemma same_result_exactly_tail l (a b b' : tensor) :
  same_tensor b b' →
  same_result_exactly
    (h_total ← Torch.cat_cols a b; y ← Torch.linear l h_total;
     mret (Some (Torch.relu y)))
    (h_total ← Torch.cat_cols a b'; y ← Torch.linear l h_total;
     mret (Some (Torch.relu y))).
Proof.
  intros Hb.
  pose proof (same_result_tail l _ _ (same_outcome_cat_cols a b b' Hb)) as Hs.
  destruct (h_total ← Torch.cat_cols a b; y ← Torch.linear l h_total;
            mret (Some (Torch.relu y))) as [t|e] eqn:E;
    destruct (h_total ← Torch.cat_cols a b'; y ← Torch.linear l h_total;
              mret (Some (Torch.relu y))) as [t'|e'] eqn:E'.
  - exact Hs.
  - by destruct t.
  - done.
  - apply tail_Raised in E, E'. by subst.
Qed.

(** With shapes that the assignments accept and widths that go together,
    the two runs end the same way to the letter. *)
Lemma Cell8_runs_agree l h w g0 c :
  nrows h = number_of_src_nodes g0 → nrows w = number_of_edges g0 →
  Torch.broadcast (ncols h) (ncols w) = Some c →
  same_result_exactly (Cell8_run (u_mul_e "h" "w" "m") l h w g0).1
                      (Cell8_run (udf Cell10.u_mul_e_udf) l h w g0).1.
Proof.
  intros Hh Hw Hc. destruct (assignments_accepted h w g0 Hh Hw) as [H1 H2].
  pose proof (builtin_messages h w g0 _ _ H1 H2) as Hb.
  pose proof (udf_messages h w g0 _ _ H1 H2) as Hu.
  rewrite Hc in Hb, Hu.
  destruct Hb as (mb & Hb & Hbr & Hbc & Hbcell).
  destruct Hu as (mu & Hu & Hur & Huc & Hucell).
  rewrite (Cell8_run_outcome_messages _ _ _ _ _ mb Hh Hw Hb).
  rewrite (Cell8_run_outcome_messages _ _ _ _ _ mu Hh Hw Hu).
  apply same_result_exactly_tail, same_tensor_mean.
  - rewrite Hbr. symmetry.
    by apply (weighted_number_of_edges h w g0 (put_src "h" h g0)).
  - split; [congruence|]. split; [congruence|].
    intros i j Hi _. rewrite Hbcell, Hucell; [done | lia].
Qed.

Lemma promote_refl d : Any.promote d d = d.
Proof. by destruct d. Qed.

Lemma dtype_eqb_refl d : Any.dtype_eqb d d = true.
Proof. by destruct d. Qed.

(** The product of two matrices with as many rows as each other. *)
Lemma mul_rows_agree (a b : tensor) :
  nrows a = nrows b →
  match Torch.broadcast (ncols a) (ncols b) with
  | Some c =>
      ∃ m, Torch.mul a b = Returned m ∧ nrows m = nrows a ∧ ncols m = c ∧
           ∀ i j, i < nrows a →
                  cell m i j = edge_message (ncols a) (ncols b) (cell a i) (cell b i) j
  | None => Torch.mul a b = Raised (RuntimeError size_mismatch)
  end.
Proof.
  intros Hr. unfold Torch.mul. rewrite <- Hr, broadcast_refl.
  destruct (Torch.broadcast (ncols a) (ncols b)) as [c|]; [|done].
  eexists. split; [reflexivity|]. split; [done|]. split; [done|].
  intros i j Hi. simpl. unfold edge_message.
  by rewrite (bidx_lt _ _ Hi).
Qed.

(** On matrices the user-defined function of [Any] is the one of
    [Cell10]. *)
Lemma u_mul_e_udf_on_matrices (edges : Any.EdgeBatch) d d' (h w : tensor) :
  Any.src edges !! "h" = Some (Any.matrix d h) →
  Any.data edges !! "w" = Some (Any.matrix d' w) →
  Any.u_mul_e_udf edges
  = (m ← Torch.mul h w; mret {[ "m" := Any.matrix (Any.promote d d') m ]}).
Proof.
  intros Hh Hw. unfold Any.u_mul_e_udf, Any.getitem. rewrite Hh, Hw. simpl.
  unfold Any.mul. simpl. by destruct (Torch.mul h w).
Qed.

Lemma u_mul_e_udf_of_batch d (edges : EdgeBatch) :
  Any.u_mul_e_udf (Any.of_batch d edges)
  = match Cell10.u_mul_e_udf edges with
    | Returned msgs => Returned (Any.matrix d <$> msgs)
    | Raised e => Raised e
    end.
Proof.
  unfold Any.u_mul_e_udf, Cell10.u_mul_e_udf, Any.getitem, getitem. simpl.
  rewrite !lookup_fmap.
  destruct (src edges !! "h") as [h|]; simpl; [|done].
  destruct (data edges !! "w") as [w|]; simpl; [|done].
  unfold Any.mul. simpl. destruct (Torch.mul h w); simpl; [|done].
  unfold mret, outcome_ret. f_equal. by rewrite map_fmap_singleton, promote_refl.
Qed.

(** On the batch of a graph's edges, with features of one floating dtype
    and at least one column each, the built-in function of [Any] is the one
    of [DGL]. *)
Lemma u_mul_e_of_batch d (lhs rhs out : string) (g0 : DGLGraph) (h w : tensor) :
  Any.floating d = true →
  srcdata g0 !! lhs = Some h → edata g0 !! rhs = Some w →
  nrows w = number_of_edges g0 → 0 < ncols h → 0 < ncols w →
  match u_mul_e_messages lhs rhs out g0,
        Any.u_mul_e lhs rhs out (Any.of_batch d (edge_batch g0)) with
  | Returned msgs, Returned msgs' =>
      ∃ m m', msgs = {[ out := m ]} ∧ msgs' = {[ out := Any.matrix d m' ]} ∧
              same_tensor m m'
  | Raised e, Raised e' => e = e'
  | _, _ => False
  end.
Proof.
  intros Hd Hh Hw Hr Hch Hcw.
  unfold u_mul_e_messages, Any.u_mul_e, Any.getitem, getitem. simpl.
  rewrite !lookup_fmap, Hh, Hw. simpl.
  rewrite Hd, dtype_eqb_refl, length_map.
  assert ((length (edges g0) =? nrows w) = true) as -> by by apply Nat.eqb_eq.
  simpl.
  destruct (Nat.eqb_spec (ncols h) 0) as [?|_]; [lia|].
  destruct (Nat.eqb_spec (ncols w) 0) as [?|_]; [lia|]. simpl.
  destruct (Torch.broadcast (ncols h) (ncols w)) as [c|]; [|done]. simpl.
  eexists _, _. split; [reflexivity|]. split; [reflexivity|].
  split; [done|]. split; [done|].
  intros i j _ _. simpl. unfold edge_message, edge_src. by rewrite nth_map_fst.
Qed.

(** On two matrices of one floating dtype, with a row per edge and at least
    one column each, the two message functions do the same. *)
Lemma message_functions_agree_on_matrices (edges : Any.EdgeBatch) d (h w : tensor) :
  Any.floating d = true →
  Any.src edges !! "h" = Some (Any.matrix d h) →
  Any.data edges !! "w" = Some (Any.matrix d w) →
  nrows h = nrows w → 0 < ncols h → 0 < ncols w →
  match Torch.broadcast (ncols h) (ncols w) with
  | Some c =>
      ∃ mb mu,
        Any.u_mul_e "h" "w" "m" edges = Returned {[ "m" := Any.matrix d mb ]} ∧
        Any.u_mul_e_udf edges = Returned {[ "m" := Any.matrix d mu ]} ∧
        same_tensor mb mu ∧ nrows mu = nrows h ∧ ncols mu = c ∧
        ∀ i j, i < nrows h →
               cell mu i j = edge_message (ncols h) (ncols w) (cell h i) (cell w i) j
  | None =>
      Any.u_mul_e "h" "w" "m" edges = Raised (DGLError not_broadcastable) ∧
      Any.u_mul_e_udf edges = Raised (RuntimeError size_mismatch)
  end.
Proof.
  intros Hd Hh Hw Hr Hch Hcw.
  rewrite (u_mul_e_udf_on_matrices edges d d h w Hh Hw), promote_refl.
  unfold Any.u_mul_e, Any.getitem. rewrite Hh, Hw. simpl.
  rewrite Hd, dtype_eqb_refl.
  assert ((nrows h =? nrows w) = true) as -> by by apply Nat.eqb_eq.
  simpl.
  destruct (Nat.eqb_spec (ncols h) 0) as [?|_]; [lia|].
  destruct (Nat.eqb_spec (ncols w) 0) as [?|_]; [lia|]. simpl.
  pose proof (mul_rows_agree h w Hr) as Hm.
  destruct (Torch.broadcast (ncols h) (ncols w)) as [c|].
  - destruct Hm as (m & -> & Hmr & Hmc & Hcell). simpl.
    eexists _, m. split; [reflexivity|]. split; [reflexivity|].
    split; [|done].
    split; [simpl; congruence|]. split; [simpl; congruence|].
    intros i j Hi _. simpl in *. by rewrite Hcell.
  - by rewrite Hm.
Qed.

(** C5, as amended.  On two-dimensional tensors of one floating dtype with
    at least one column each, [u_mul_e_udf] does what the built-in
    [fn.u_mul_e('h', 'w', 'm')] does.  On every batch with a row of 'h' and
    a row of 'w' per edge, both return a mapping with the single key 'm' and
    the same tensor, the elementwise product of 'h' and 'w' with the feature
    widths broadcast; when the widths do not go together the built-in raises
    the graph library's error and the user-defined function the tensor
    library's.  Put in the place of the built-in in the second [forward],
    the user-defined function gives the same outcome to the letter, a tensor
    of the same shape with the same entries or the same exception, except
    when the assignments are accepted and the widths do not go together:
    then the built-in raises [DGLError] and the user-defined function
    [RuntimeError].  Both runs leave the same graph. *)
Theorem udf_agrees_with_builtin_on_matrices
    (self : Cell8.SAGEConv) (h w : tensor) (g0 : DGLGraph) :
  0 < ncols h → 0 < ncols w →
  let r := run (Cell8.forward self h w) g0 in
  let ru := run (Cell8.forward_udf self h w) g0 in
  (nrows h ≠ number_of_src_nodes g0 ∨ nrows w ≠ number_of_edges g0 ∨
   Torch.broadcast (ncols h) (ncols w) ≠ None →
   same_result_exactly r.1 ru.1) ∧
  (nrows h = number_of_src_nodes g0 → nrows w = number_of_edges g0 →
   Torch.broadcast (ncols h) (ncols w) = None →
   r.1 = Raised (DGLError not_broadcastable) ∧
   ru.1 = Raised (RuntimeError size_mismatch)) ∧
  g r.2 = g ru.2 ∧
  (∀ (edges : Any.EdgeBatch) d (h' w' : tensor),
     Any.floating d = true →
     Any.src edges !! "h" = Some (Any.matrix d h') →
     Any.data edges !! "w" = Some (Any.matrix d w') →
     nrows h' = nrows w' → 0 < ncols h' → 0 < ncols w' →
     match Torch.broadcast (ncols h') (ncols w') with
     | Some c =>
         ∃ mb mu,
           Any.u_mul_e "h" "w" "m" edges = Returned {[ "m" := Any.matrix d mb ]} ∧
           Any.u_mul_e_udf edges = Returned {[ "m" := Any.matrix d mu ]} ∧
           same_tensor mb mu ∧ nrows mu = nrows h' ∧ ncols mu = c ∧
           ∀ i j, i < nrows h' →
                  cell mu i j
                  = edge_message (ncols h') (ncols w') (cell h' i) (cell w' i) j
     | None =>
         Any.u_mul_e "h" "w" "m" edges = Raised (DGLError not_broadcastable) ∧
         Any.u_mul_e_udf edges = Raised (RuntimeError size_mismatch)
     end).
Proof.
  intros Hch Hcw r ru. subst r ru.
  rewrite Cell8_forward_run, Cell8_forward_udf_run, !Cell8_run_graph.
  set (l := Cell8.linear self).
  split; [|split; [|split; [done|]]].
  - intros Hcase.
    destruct (decide (nrows h = number_of_src_nodes g0)) as [Hh|Hh].
    2: { by rewrite !(Cell8_run_bad_h _ l h w g0 Hh). }
    destruct (decide (nrows w = number_of_edges g0)) as [Hw|Hw].
    2: { by rewrite !(Cell8_run_bad_w _ l h w g0 Hh Hw). }
    destruct (Torch.broadcast (ncols h) (ncols w)) as [c|] eqn:Hc.
    + by apply (Cell8_runs_agree l h w g0 c).
    + by destruct Hcase as [?|[?|?]].
  - intros Hh Hw Hc.
    pose proof (Cell8_run_builtin l h w g0 Hh Hw) as Hb.
    pose proof (Cell8_run_udf l h w g0 Hh Hw) as Hu.
    rewrite Hc in Hb, Hu. by rewrite Hb, Hu.
  - intros edges d h' w'. apply message_functions_agree_on_matrices.
Qed.

Lemma udf_agrees_with_builtin_on_matrices_witness :
  0 < ncols h_ex ∧ 0 < ncols w_ex ∧
  Torch.broadcast (ncols h_ex) (ncols w_ex) ≠ None ∧
  same_result_exactly
    (run (Cell8.forward (Cell8.__init__ 2 2 W_ex b_ex) h_ex w_ex) g_ex).1
    (run (Cell8.forward_udf (Cell8.__init__ 2 2 W_ex b_ex) h_ex w_ex) g_ex).1.
Proof.
  assert (Hh : 0 < ncols h_ex) by (vm_compute; lia).
  assert (Hw : 0 < ncols w_ex) by (vm_compute; lia).
  assert (Hb : Torch.broadcast (ncols h_ex) (ncols w_ex) ≠ None) by discriminate.
  split; [exact Hh|]. split; [exact Hw|]. split; [exact Hb|].
  exact (proj1 (udf_agrees_with_builtin_on_matrices
                  (Cell8.__init__ 2 2 W_ex b_ex) h_ex w_ex g_ex Hh Hw)
           (or_intror (or_intror Hb))).
Defined.

(** C5, as stated, fails, in three ways.  With weights of a width that does
    not go with the width of the feature, the second [forward] raises
    [DGLError] with the built-in and [RuntimeError] with the user-defined
    function: not the same result.  With a weight of one dimension, one
    scalar per edge, the built-in returns the products edge by edge and the
    user-defined function raises: PyTorch lines the three scalars up with
    the two feature columns.  With integer weights the built-in raises and
    the user-defined function returns. *)
Lemma udf_differs_from_builtin :
  ((run (Cell8.forward (Cell8.__init__ 2 2 W_ex b_ex) h_ex w_wide) g_ex).1
   = Raised (DGLError not_broadcastable) ∧
   (run (Cell8.forward_udf (Cell8.__init__ 2 2 W_ex b_ex) h_ex w_wide) g_ex).1
   = Raised (RuntimeError size_mismatch)) ∧
  ((∃ m, Any.u_mul_e "h" "w" "m" batch_vector_weight
         = Returned {[ "m" := Any.matrix Any.float32 m ]} ∧
         to_lists m = [[1; 2]; [10; 14]; [9; 12]]%Q) ∧
   Any.u_mul_e_udf batch_vector_weight = Raised (RuntimeError size_mismatch)) ∧
  (Any.u_mul_e "h" "w" "m" batch_integer_weight = Raised (DGLError unsupported_dtype) ∧
   ∃ m, Any.u_mul_e_udf batch_integer_weight
        = Returned {[ "m" := Any.matrix Any.float32 m ]} ∧
        to_lists m = [[1; 2]; [10; 14]; [9; 12]]%Q).
Proof.
  split; [split; reflexivity|]. split.
  - split; [|reflexivity]. eexists. split; [reflexivity|]. vm_compute. reflexivity.
  - split; [reflexivity|]. eexists. split; [reflexivity|]. vm_compute. reflexivity.
Qed.

(** * Messages, edge by edge *)





(** * Shape and sign of what the second [forward] returns *)

(** C9, as amended.  On every graph with [n] destination nodes, for a
    module made by [__init__ in_feat out_feat] with [in_feat] at least 1, a
    feature [h] of width [in_feat] with exactly one row per source node, of
    which there are at least [n], and edge weights [w] of two dimensions
    with one row per edge and of width [in_feat] or 1 (all of the module's
    floating dtype, as every [tensor] is), the second [forward] returns a
    tensor of shape (n, out_feat): [F.relu] of the linear projection of the
    concatenation of [h[:n]] with the feature 'h_neigh' that the propagation
    has aggregated.  In exact arithmetic none of its entries is negative;
    on floating-point entries [F.relu] leaves an entry nonnegative or
    NaN. *)
Theorem second_forward_returns_nonnegative
    (in_feat out_feat : nat) (W : nat → nat → Q) (b : nat → Q)
    (h w : tensor) (g0 : DGLGraph) :
  0 < in_feat →
  nrows h = number_of_src_nodes g0 → number_of_dst_nodes g0 ≤ nrows h →
  ncols h = in_feat →
  nrows w = number_of_edges g0 → ncols w = in_feat ∨ ncols w = 1 →
  let self := Cell8.__init__ in_feat out_feat W b in
  ∃ h_neigh h_total y,
    weighted_h_neigh (u_mul_e "h" "w" "m") h w g0 = Returned h_neigh ∧
    Torch.cat [Torch.slice_to h (number_of_dst_nodes g0); h_neigh] 1 = Returned h_total ∧
    Torch.linear (Cell8.linear self) h_total = Returned y ∧
    (run (Cell8.forward self h w) g0).1 = Returned (Some (Torch.relu y)) ∧
    nrows h_neigh = number_of_dst_nodes g0 ∧ ncols h_neigh = in_feat ∧
    nrows (Torch.relu y) = number_of_dst_nodes g0 ∧
    ncols (Torch.relu y) = out_feat ∧
    (∀ i j, (0 <= cell (Torch.relu y) i j)%Q) ∧
    (∀ i j, Any.relu_value (Any.finite (cell y i j))
            = Any.finite (cell (Torch.relu y) i j)) ∧
    (∀ v, Any.relu_value v = Any.nan ∨ Any.nonnegative (Any.relu_value v)).
Proof.
  intros _ Hh Hn Hc Hw Hcw self.
  pose proof (Cell8_run_builtin (Cell8.linear self) h w g0 Hh Hw) as Hrun.
  rewrite (broadcast_width (ncols h) (ncols w)) in Hrun by (rewrite Hc; exact Hcw).
  destruct Hrun as (m & Hmr & Hmc & _ & Hneigh & Hrun).
  rewrite Cell8_forward_run, Hrun.
  set (h_dst := Torch.slice_to h (number_of_dst_nodes g0)).
  set (h_neigh := mean_of_mailbox (put_edge "w" w (put_src "h" h g0)) m) in *.
  assert (Hnr : nrows h_neigh = number_of_dst_nodes g0)
    by apply number_of_dst_nodes_prepared.
  assert (Hnc : ncols h_neigh = in_feat) by (rewrite <- Hc, <- Hmc; done).
  assert (Hrows : nrows h_dst = nrows h_neigh).
  { rewrite Hnr. unfold h_dst, Torch.slice_to. simpl. lia. }
  destruct (cat_cols_Returned h_dst h_neigh Hrows) as (x & Hx & Hxr & Hxc).
  destruct (linear_Returned (Cell8.linear self) x) as (y & Hy & Hyr & Hyc).
  { rewrite Hxc, Hnc. unfold h_dst, Torch.slice_to. simpl. lia. }
  exists h_neigh, x, y. rewrite cat_pair, Hx.
  unfold mbind, outcome_bind. rewrite Hy.
  split; [done|]. split; [done|]. split; [done|]. split; [done|].
  split; [done|]. split; [done|].
  split; [simpl; rewrite Hyr, Hxr, Hrows; exact Hnr|].
  split; [simpl; by rewrite Hyc|].
  split; [intros i j; apply relu_nonnegative|]. split; [done|].
  intros [q| | |]; simpl; [right; apply Q.le_max_l | by right | by right | by left].
Qed.

Lemma second_forward_returns_nonnegative_witness :
  0 < 2 ∧
  nrows h_ex = number_of_src_nodes g_ex ∧ number_of_dst_nodes g_ex ≤ nrows h_ex ∧
  ncols h_ex = 2 ∧ nrows w_ex = number_of_edges g_ex ∧ ncols w_ex = 1 ∧
  ∃ h_neigh h_total y,
    weighted_h_neigh (u_mul_e "h" "w" "m") h_ex w_ex g_ex = Returned h_neigh ∧
    Torch.cat [Torch.slice_to h_ex (number_of_dst_nodes g_ex); h_neigh] 1
    = Returned h_total ∧
    Torch.linear (Cell8.linear (Cell8.__init__ 2 2 W_ex b_ex)) h_total = Returned y ∧
    (run (Cell8.forward (Cell8.__init__ 2 2 W_ex b_ex) h_ex w_ex) g_ex).1
    = Returned (Some (Torch.relu y)) ∧
    nrows h_neigh = number_of_dst_nodes g_ex ∧ ncols h_neigh = 2 ∧
    nrows (Torch.relu y) = number_of_dst_nodes g_ex ∧
    ncols (Torch.relu y) = 2 ∧
    (∀ i j, (0 <= cell (Torch.relu y) i j)%Q) ∧
    (∀ i j, Any.relu_value (Any.finite (cell y i j))
            = Any.finite (cell (Torch.relu y) i j)) ∧
    (∀ v, Any.relu_value v = Any.nan ∨ Any.nonnegative (Any.relu_value v)).
Proof.
  assert (H0 : 0 < 2) by lia.
  assert (Hn : number_of_dst_nodes g_ex ≤ nrows h_ex) by (vm_compute; lia).
  split; [exact H0|].
  split; [reflexivity|]. split; [exact Hn|]. split; [reflexivity|].
  split; [reflexivity|]. split; [reflexivity|].
  exact (second_forward_returns_nonnegative 2 2 W_ex b_ex h_ex w_ex g_ex
           H0 eq_refl Hn eq_refl eq_refl (or_intror eq_refl)).
Defined.
